(** * simplenn: the Dense block and the regression harness

    A shallow embedding of [simplenn/models/dense.py] (the composite layer
    that chains a Linear, a Bias and an Activation child) and of the batch
    size computation of [test/regression.py].

    Python objects are modelled by explicit state passing: a method is a
    computation over the state of the object it is called on, and it either
    returns a value or raises.  Dictionaries of parameters are finite maps
    keyed by the parameter name.  The children of the block are taken
    through their interface: the block is verified for any Linear, Bias
    and Activation that implement it. *)

From Stdlib Require Import ZArith Ascii String List.
From stdpp Require Import base option gmap strings pretty.

Local Open Scope string_scope.
Local Open Scope list_scope.

(** ** Exceptions and computations *)

(** A Python exception: its class name and its message. *)
Record exception : Type := Exception { exc_type : string; exc_msg : string }.

Definition ValueError (msg : string) : exception := Exception "ValueError" msg.

(** The outcome of a call: a value, or the exception that left it. *)
Inductive outcome (A : Type) : Type :=
| Returned (a : A)
| Raised (e : exception).
Arguments Returned {A} a.
Arguments Raised {A} e.

(** A computation over a state [S]: the state after the call comes with the
    outcome, also when the call raised (what was mutated stays mutated). *)
Definition comp (S A : Type) : Type := S -> outcome A * S.

Definition ret {S A} (a : A) : comp S A := fun s => (Returned a, s).

Definition raise {S A} (e : exception) : comp S A := fun s => (Raised e, s).

Definition bind {S A B} (m : comp S A) (k : A -> comp S B) : comp S B :=
  fun s =>
    match m s with
    | (Returned a, s') => k a s'
    | (Raised e, s') => (Raised e, s')
    end.

#[global] Instance comp_ret {S} : MRet (comp S) := fun A => @ret S A.
#[global] Instance comp_bind {S} : MBind (comp S) := fun A B k m => @bind S A B m k.

(** [returns m s a s']: run from [s], [m] returns [a] and leaves [s']. *)
Definition returns {S A} (m : comp S A) (s : S) (a : A) (s' : S) : Prop :=
  m s = (Returned a, s').

(** [read_only m]: whatever the state [m] is run from, and whether it
    returns or raises, it leaves the state as it was. *)
Definition read_only {S A} (m : comp S A) : Prop :=
  forall s, snd (m s) = s.

(** ** Parameter dictionaries *)

Section Dict.
Context {V : Type}.

(** The dict display [{**d1, **d2, ..., **dn}]: the unpackings are
    applied from left to right onto an empty dict, each one overwriting
    the keys already there.  (The iteration order of the Python dict is
    not part of the model.) *)
Definition dict_unpack (ds : list (gmap string V)) : gmap string V :=
  foldl (fun acc d => d ∪ acc) ∅ ds.

(** [later_wins ds m]: whenever two of the unpackings [ds] have a key, the
    merged dict [m] has it with the value of the later one (of the last
    unpacking that has it): the earlier entry is gone. *)
Definition later_wins (ds : list (gmap string V)) (m : gmap string V) : Prop :=
  ∀ ds1 earlier ds2 later ds3 k v,
    ds = ds1 ++ earlier :: ds2 ++ later :: ds3 ->
    is_Some (earlier !! k) ->
    later !! k = Some v ->
    Forall (fun d => d !! k = None) ds3 ->
    m !! k = Some v.

End Dict.

(** ** The regression harness: batch size *)

Module Regression.

(** [test_model], lines 24-25: the batch size for a dataset of [n]
    samples.  [//] is floor division. *)
Definition batch_size (n : Z) : Z :=
  let batch_size := Z.min 16 (Z.max 64 (n / 32)) in
  Z.min n batch_size.

End Regression.

(** ** The layer interface *)

(** [ModelWithParameters]: what [Dense] calls on its children, and what it
    implements itself.  [L] is the state of the layer object, [C] the type
    of the cache its forward pass hands to its backward pass. *)
Class Model (Tensor L C : Type) : Type := {
  forward_with_cache : Tensor -> comp L (Tensor * C);
  backward : Tensor -> C -> comp L (Tensor * gmap string Tensor);
  get_parameters : comp L (gmap string Tensor);
}.
#[global] Hint Mode Model - ! - : typeclass_instances.

(** ** The Dense block *)

Section Dense.
Context {Tensor : Type}.
Context {Linear Bias Activation : Type} {CacheL CacheB CacheA : Type}.
Context `{!Model Tensor Linear CacheL, !Model Tensor Bias CacheB,
          !Model Tensor Activation CacheA}.

(** The object: the three owned children and the name. *)
Record Dense : Type := mkDense {
  linear : Linear;
  bias : Bias;
  activation : Activation;
  name : string;
}.

(** [self.linear.m(...)]: a call on an owned child runs on the child's
    state and stores the state it leaves back in the field. *)
Definition self_linear {A} (m : comp Linear A) : comp Dense A :=
  fun self =>
    let (r, l) := m (linear self) in
    (r, mkDense l (bias self) (activation self) (name self)).

Definition self_bias {A} (m : comp Bias A) : comp Dense A :=
  fun self =>
    let (r, b) := m (bias self) in
    (r, mkDense (linear self) b (activation self) (name self)).

Definition self_activation {A} (m : comp Activation A) : comp Dense A :=
  fun self =>
    let (r, a) := m (activation self) in
    (r, mkDense (linear self) (bias self) a (name self)).

(** [Dense.forward_with_cache], lines 64-72. *)
Definition Dense_forward_with_cache (x : Tensor)
  : comp Dense (Tensor * (CacheL * CacheB * CacheA)) :=
  '(y_linear, cache_linear) ← self_linear (forward_with_cache x);
  '(y_bias, cache_bias) ← self_bias (forward_with_cache y_linear);
  '(y_activation, cache_activation) ← self_activation (forward_with_cache y_bias);
  mret (y_activation, (cache_linear, cache_bias, cache_activation)).

(** [Dense.backward], lines 74-89.  The cache is a 3-tuple by its type,
    so the unpacking of line 78 cannot fail. *)
Definition Dense_backward (δEδy : Tensor) (cache : CacheL * CacheB * CacheA)
  : comp Dense (Tensor * gmap string Tensor) :=
  let '(cache_linear, cache_bias, cache_activation) := cache in
  let '(δEδbias, δEδlinear, δEδactivation) :=
    ((∅ : gmap string Tensor), (∅ : gmap string Tensor), (∅ : gmap string Tensor)) in
  '(δEδx_activation, δEδactivation) ← self_activation (backward δEδy cache_activation);
  '(δEδx_bias, δEδbias) ← self_bias (backward δEδx_activation cache_bias);
  '(δEδx, δEδlinear) ← self_linear (backward δEδx_bias cache_linear);
  let δEδdense := dict_unpack [δEδbias; δEδlinear; δEδactivation] in
  mret (δEδx, δEδdense).

(** [Dense.get_parameters], lines 92-101. *)
Definition Dense_get_parameters : comp Dense (gmap string Tensor) :=
  p_linear ← self_linear get_parameters;
  p_bias ← self_bias get_parameters;
  p_activation ← self_activation get_parameters;
  let p := dict_unpack [p_linear; p_bias; p_activation] in
  mret p.

(** [class Dense(ModelWithParameters)]. *)
#[global] Instance Dense_Model : Model Tensor Dense (CacheL * CacheB * CacheA) := {
  forward_with_cache := Dense_forward_with_cache;
  backward := Dense_backward;
  get_parameters := Dense_get_parameters;
}.

End Dense.

(** ** Construction *)

(** A dict written as a literal whose key order is observable (its keys are
    joined into a message): the items in the order of the literal. *)
Fixpoint dict_getitem {V : Type} (d : list (string * V)) (k : string) : option V :=
  match d with
  | [] => None
  | (k', v) :: d' => if decide (k' = k) then Some v else dict_getitem d' k
  end.

Definition dict_keys {V : Type} (d : list (string * V)) : list string := map fst d.

(** [sep.join(l)]. *)
Definition join (sep : string) (l : list string) : string := String.concat sep l.

Section Init.
Context {Linear Bias Activation : Type}.
(** What the constructors of the children act on (the random number
    generator the initializers draw from, and whatever else they touch). *)
Context {World : Type}.
(** [simplenn.initializers]: the class and its two instances built once,
    when [__init__] is defined, as the values of the default arguments. *)
Context {Initializer : Type} (Zero RandomNormal : Initializer).
(** [Linear(input_size, output_size, initializer=...)] and
    [Bias(output_size, initializer=...)]. *)
Context (Linear_init : Z -> Z -> Initializer -> comp World Linear).
Context (Bias_init : Z -> Initializer -> comp World Bias).
(** The five classes of [simplenn.models.activations], called without
    arguments. *)
Context (Identity ReLU TanH Sigmoid Softmax : comp World Activation).
(** [ModelWithParameters.__init__(name=name)]: the name it gives the
    object. *)
Context (ModelWithParameters_init : option string -> comp World string).

(** Lines 10-15. *)
Definition activation_dict : list (string * comp World Activation) :=
  [("id", Identity);
   ("relu", ReLU);
   ("tanh", TanH);
   ("sigmoid", Sigmoid);
   ("softmax", Softmax)].

(** [Dense.__init__], lines 48-62.  An argument that the caller omits is
    [None] here; [activation_name] and [name] also default to Python's
    [None], which line 53 tests for. *)
Definition Dense_init (input_size output_size : Z)
    (activation_name : option string)
    (linear_initializer bias_initializer : option Initializer)
    (name : option string) : comp World (@Dense Linear Bias Activation) :=
  let linear_initializer := default RandomNormal linear_initializer in
  let bias_initializer := default Zero bias_initializer in
  linear ← Linear_init input_size output_size linear_initializer;
  bias ← Bias_init output_size bias_initializer;
  let activation_name :=
    match activation_name with
    | None => "id"
    | Some activation_name => activation_name
    end in
  match dict_getitem activation_dict activation_name with
  | Some cls =>
      activation ← cls;
      name ← ModelWithParameters_init name;
      mret (mkDense linear bias activation (name +:+ "(" +:+ activation_name +:+ ")"))
  | None =>
      raise (ValueError ("Unknown activation function " +:+ activation_name
                         +:+ ". Available activations: "
                         +:+ join "," (dict_keys activation_dict)))
  end.

End Init.

(** ** A concrete family of children: one feature, one sample, integers *)

Module Scalar.

(** Tensors of shape 1x1 with an integer entry. *)
Definition Tensor : Type := Z.

(** Modelled from the spec: the Linear layer of section 4.1
    ([simplenn/models/linear.py] is not among the sources),
    [y = x·w], [dE/dw = xᵗ·dE/dy], [dE/dx = dE/dy·wᵗ]; the cache is the
    input.  The parameter name is a field, [w] in the repository. *)
Record Linear : Type := mkLinear { w_name : string; w : Z }.

#[global] Instance Linear_Model : Model Tensor Linear Z := {
  forward_with_cache x := fun self => (Returned (x * w self, x)%Z, self);
  backward δEδy x := fun self =>
    (Returned (δEδy * w self, {[ w_name self := x * δEδy ]})%Z, self);
  get_parameters := fun self => (Returned {[ w_name self := w self ]}, self);
}.

(** Modelled from the spec: the Bias layer of section 4.1
    ([simplenn/models/bias.py] is not among the sources), [y = x+b],
    [dE/db] the sum of [dE/dy] over the batch axis (one sample here),
    [dE/dx = dE/dy].  The parameter name is a field, [b] in the
    repository. *)
Record Bias : Type := mkBias { b_name : string; b : Z }.

#[global] Instance Bias_Model : Model Tensor Bias unit := {
  forward_with_cache x := fun self => (Returned (x + b self, tt)%Z, self);
  backward δEδy _ := fun self =>
    (Returned (δEδy, {[ b_name self := δEδy ]}), self);
  get_parameters := fun self => (Returned {[ b_name self := b self ]}, self);
}.

(** Modelled from the spec: the activations of section 4.1
    ([simplenn/models/activations.py] is not among the sources), none
    of which owns a parameter.  Identity is [y = x]; ReLU is
    [y = max(0,x)] with [dE/dx = dE/dy ⊙ [x>0]]; Softmax over a row of
    one entry is [y = 1], and its Jacobian there is zero.  TanH and
    Sigmoid have no integer values: calling them raises. *)
Inductive Activation : Type := Identity | ReLU | TanH | Sigmoid | Softmax.

Definition no_integer_value {S A} : comp S A :=
  raise (Exception "NotImplementedError" "no integer value").

#[global] Instance Activation_Model : Model Tensor Activation Z := {
  forward_with_cache x := fun self =>
    match self with
    | Identity => (Returned (x, x), self)
    | ReLU => (Returned (Z.max 0 x, x), self)
    | Softmax => (Returned (1, 1)%Z, self)
    | TanH | Sigmoid => no_integer_value self
    end;
  backward δEδy c := fun self =>
    match self with
    | Identity => (Returned (δEδy, ∅), self)
    | ReLU => (Returned (if (0 <? c)%Z then δEδy else 0%Z, ∅), self)
    | Softmax => (Returned (0%Z, ∅), self)
    | TanH | Sigmoid => no_integer_value self
    end;
  get_parameters := fun self => (Returned ∅, self);
}.

(** Modelled from the spec: the initializers of section 6
    ([simplenn/initializers.py] is not among the sources).  The world is
    the seed of the generator: the zero fill leaves it alone, the random
    fill returns it and steps it. *)
Inductive Initializer : Type := Zero | RandomNormal.

Definition initialize (i : Initializer) : comp Z Z :=
  match i with
  | Zero => ret 0%Z
  | RandomNormal => fun seed => (Returned seed, (seed + 1)%Z)
  end.

(** The constructors: tensors are 1x1, other sizes are refused. *)
Definition Linear_init (input_size output_size : Z) (initializer : Initializer)
  : comp Z Linear :=
  if decide (input_size = 1%Z ∧ output_size = 1%Z)
  then w ← initialize initializer; mret (mkLinear "w" w)
  else raise (ValueError "only 1x1").

Definition Bias_init (output_size : Z) (initializer : Initializer) : comp Z Bias :=
  if decide (output_size = 1%Z)
  then b ← initialize initializer; mret (mkBias "b" b)
  else raise (ValueError "only 1x1").

(** Modelled from the spec: the default name of section 3, derived from
    the class ([simplenn/model.py] is not among the sources). *)
Definition ModelWithParameters_init (name : option string) : comp Z string :=
  ret (default "Dense" name).

(** [Dense(input_size, output_size, ...)] over these children. *)
Definition Dense_new :=
  Dense_init Zero RandomNormal Linear_init Bias_init
    (ret Identity) (ret ReLU) (ret TanH) (ret Sigmoid) (ret Softmax)
    ModelWithParameters_init.

(** A block with weight 3, bias 2 and a ReLU, and a block whose Linear and
    Bias both call their parameter [w]. *)
Definition block : @Dense Linear Bias Activation :=
  mkDense (mkLinear "w" 3) (mkBias "b" 2) ReLU "Dense(relu)".

Definition clashing : @Dense Linear Bias Activation :=
  mkDense (mkLinear "w" 3) (mkBias "w" 2) Identity "Dense(id)".

(** A block whose activation raises when called. *)
Definition tanh_block : @Dense Linear Bias Activation :=
  mkDense (mkLinear "w" 3) (mkBias "b" 2) TanH "Dense(tanh)".

End Scalar.

(** ** The primitive layers *)

(** The tensor library that the layers compute with, external to the
    repository: an opaque array type and its operations.  An operation
    that takes two arrays raises when their shapes do not fit. *)
Class TensorOps (Tensor : Type) : Type := {
  matmul : Tensor -> Tensor -> outcome Tensor;
  add : Tensor -> Tensor -> outcome Tensor;
  multiply : Tensor -> Tensor -> outcome Tensor;
  transpose : Tensor -> Tensor;
  sum_axis0 : Tensor -> Tensor;
  maximum0 : Tensor -> Tensor;
  positive : Tensor -> Tensor;
  tanh : Tensor -> Tensor;
  one_minus_square : Tensor -> Tensor;
  sigmoid : Tensor -> Tensor;
  times_one_minus : Tensor -> Tensor;
  softmax : Tensor -> Tensor;
  softmax_jvp : Tensor -> Tensor -> Tensor;
}.

(** The outcome of an operation, in a method: the object is not touched. *)
Definition operation {S A} (o : outcome A) : comp S A := fun s => (o, s).

(** [self.attribute], read in a method. *)
Definition getattr {S A} (attribute : S -> A) : comp S A :=
  fun self => (Returned (attribute self), self).

Module Primitive.
Section Layers.
Context {Tensor : Type} `{!TensorOps Tensor}.

(** Modelled from the spec: the Linear layer of section 4.1
    ([simplenn/models/linear.py] is not among the sources): the parameter
    [w], named as in the comment of lines 94-96 of [dense.py]; forward
    [y = x·w], which reads [w] and has no side effect, its cache the input;
    [dE/dw = xᵗ·dE/dy], [dE/dx = dE/dy·wᵗ]. *)
Record Linear : Type := mkLinear { w : Tensor }.

#[global] Instance Linear_Model : Model Tensor Linear Tensor := {
  forward_with_cache x :=
    w ← getattr w;
    y ← operation (matmul x w);
    mret (y, x);
  backward δEδy x :=
    w ← getattr w;
    δEδw ← operation (matmul (transpose x) δEδy);
    δEδx ← operation (matmul δEδy (transpose w));
    mret (δEδx, {[ "w" := δEδw ]});
  get_parameters :=
    w ← getattr w;
    mret {[ "w" := w ]};
}.

(** Modelled from the spec: the Bias layer of section 4.1
    ([simplenn/models/bias.py] is not among the sources): the parameter
    [b], named as in the comment of lines 94-96 of [dense.py]; forward
    [y = x+b], which reads [b] and has no side effect; [dE/db] the sum of
    [dE/dy] over the batch axis, [dE/dx = dE/dy]. *)
Record Bias : Type := mkBias { b : Tensor }.

#[global] Instance Bias_Model : Model Tensor Bias unit := {
  forward_with_cache x :=
    b ← getattr b;
    y ← operation (add x b);
    mret (y, tt);
  backward δEδy _ :=
    mret (δEδy, {[ "b" := sum_axis0 δEδy ]});
  get_parameters :=
    b ← getattr b;
    mret {[ "b" := b ]};
}.

(** Modelled from the spec: the activations of section 4.1
    ([simplenn/models/activations.py] is not among the sources), which own
    no parameter and whose forward passes have no side effect: Identity
    [y = x]; ReLU [y = max(0,x)], [dE/dx = dE/dy ⊙ [x>0]]; TanH
    [y = tanh(x)], [dE/dx = dE/dy ⊙ (1−y²)]; Sigmoid [y = σ(x)],
    [dE/dx = dE/dy ⊙ y⊙(1−y)]; Softmax row-wise, [dE/dx] the
    Jacobian-vector product of softmax at [y] applied to [dE/dy].  The
    cache is what the backward law is written in: the input for Identity
    and ReLU, the output for the others. *)
Inductive Activation : Type := Identity | ReLU | TanH | Sigmoid | Softmax.

Definition Activation_forward_with_cache (x : Tensor) : comp Activation (Tensor * Tensor) :=
  fun self =>
    match self with
    | Identity => (Returned (x, x), self)
    | ReLU => (Returned (maximum0 x, x), self)
    | TanH => (Returned (tanh x, tanh x), self)
    | Sigmoid => (Returned (sigmoid x, sigmoid x), self)
    | Softmax => (Returned (softmax x, softmax x), self)
    end.

Definition Activation_backward (δEδy cache : Tensor)
  : comp Activation (Tensor * gmap string Tensor) :=
  fun self =>
    let δEδx :=
      match self with
      | Identity => Returned δEδy
      | ReLU => multiply δEδy (positive cache)
      | TanH => multiply δEδy (one_minus_square cache)
      | Sigmoid => multiply δEδy (times_one_minus cache)
      | Softmax => Returned (softmax_jvp cache δEδy)
      end in
    match δEδx with
    | Returned δEδx => (Returned (δEδx, ∅), self)
    | Raised e => (Raised e, self)
    end.

#[global] Instance Activation_Model : Model Tensor Activation Tensor := {
  forward_with_cache := Activation_forward_with_cache;
  backward := Activation_backward;
  get_parameters := mret ∅;
}.

End Layers.
Arguments Linear Tensor : clear implicits.
Arguments Bias Tensor : clear implicits.
End Primitive.

(** ** The regression harness: runs and models *)

Definition AssertionError (msg : string) : exception := Exception "AssertionError" msg.

(** The line feed of [f"\nRMSE=..."]. *)
Definition newline : string := String "010"%char "".

(** The interpreter running the script: what it has printed, one entry per
    call of [print], and the rest of its state (loaded data, models,
    random generator). *)
Record process (W : Type) : Type := mkProcess { stdout : list string; world : W }.
Arguments mkProcess {W} stdout world.
Arguments stdout {W} p.
Arguments world {W} p.

Definition printed {W} (s : string) (p : process W) : process W :=
  mkProcess (stdout p ++ [s]) (world p).

(** [print(s)]. *)
Definition print {W} (s : string) : comp (process W) unit :=
  fun p => (Returned tt, printed s p).

(** What the script imports: [datasets], [simplenn.metrics] and the parts
    of [simplenn] that [test_model] uses, with the operations of the
    arrays.  The arrays that [load_regression] returns are two-dimensional,
    so that [shape] is a pair; [Number] is the type of the errors and of
    the thresholds, [lt] their comparison, [str_number] and [str_model]
    what an f-string makes of a number and of a model. *)
Class Library (W Tensor Number Model Optimizer Error : Type) : Type := {
  load_regression : string -> comp (process W) (Tensor * Tensor);
  mean_axis0 : Tensor -> Tensor;
  std_axis0 : Tensor -> Tensor;
  subtract : Tensor -> Tensor -> Tensor;
  divide : Tensor -> Tensor -> Tensor;
  shape : Tensor -> Z * Z;
  lt : Number -> Number -> bool;
  str_number : Number -> string;
  str_model : Model -> comp (process W) string;
  StochasticGradientDescent : Z -> Z -> Number -> comp (process W) Optimizer;
  SquaredError : comp (process W) Error;
  MeanError : Error -> comp (process W) Error;
  optimize : Optimizer -> Model -> Tensor -> Tensor -> Error -> comp (process W) unit;
  forward : Model -> Tensor -> comp (process W) Tensor;
  rmse : Tensor -> Tensor -> comp (process W) Number;
  mae : Tensor -> Tensor -> comp (process W) Number;
}.

(** [ExperimentConfig], lines 10-14: the attributes that [__init__] sets. *)
Module ExperimentConfig.
Record t (Number : Type) : Type := mk {
  max_mse : Number;
  lr : Number;
  epochs : Z;
}.
Arguments mk {Number} max_mse lr epochs.
Arguments max_mse {Number} _.
Arguments lr {Number} _.
Arguments epochs {Number} _.
End ExperimentConfig.

Section Harness.
Context {W Tensor Number Model Optimizer Error : Type}.
Context `{!Library W Tensor Number Model Optimizer Error}.

(** [test_model], lines 16-34. *)
Definition test_model (dataset_name : string)
    (model_generator : Z -> Z -> comp (process W) Model) (epochs : Z) (lr : Number)
  : comp (process W) (Model * Number * Number) :=
  '(x, y) ← load_regression dataset_name;
  let x := subtract x (mean_axis0 x) in
  let x := divide x (std_axis0 x) in
  let '(n, din) := shape x in
  let '(_, dout) := shape y in
  model ← model_generator din dout;
  model_str ← str_model model;
  print ("Testing model " +:+ model_str +:+ " on dataset " +:+ dataset_name
         +:+ ": " +:+ pretty n +:+ " samples, " +:+ pretty din
         +:+ " features, " +:+ pretty dout +:+ " output values");;
  let batch_size := Regression.batch_size n in
  optimizer ← StochasticGradientDescent batch_size epochs lr;
  squared_error ← SquaredError;
  error ← MeanError squared_error;
  optimize optimizer model x y error;;
  y_pred ← forward model x;
  mse ← rmse y y_pred;
  mae ← mae y y_pred;
  mret (model, mse, mae).

(** The loop of [test_regression_model], lines 39-43, over the items of
    [datasets_config] in their order.  The message of the [assert] is only
    built when the comparison fails (the script is run as it is, without
    the [-O] that drops assertions). *)
Fixpoint test_regression_model_loop
    (model_generator : Z -> Z -> comp (process W) Model)
    (items : list (string * ExperimentConfig.t Number)) : comp (process W) unit :=
  match items with
  | [] => mret tt
  | (dataset_name, config) :: items =>
      let '(lr, epochs, max_mse) :=
        (ExperimentConfig.lr config, ExperimentConfig.epochs config,
         ExperimentConfig.max_mse config) in
      '(model, mse, mae) ← test_model dataset_name model_generator epochs lr;
      (if lt mse (ExperimentConfig.max_mse config) then mret tt
       else
         model_str ← str_model model;
         raise (AssertionError
                  ("Model " +:+ model_str +:+ " achieved " +:+ str_number mse
                   +:+ " rmse, more than  " +:+ str_number max_mse
                   +:+ " which is the maximum expected for dataset "
                   +:+ dataset_name +:+ ".")));;
      print (newline +:+ "RMSE=" +:+ str_number mse
             +:+ " OK (expected less than " +:+ str_number max_mse +:+ ").");;
      test_regression_model_loop model_generator items
  end.

(** [test_regression_model], lines 37-44. *)
Definition test_regression_model
    (model_generator : Z -> Z -> comp (process W) Model)
    (datasets_config : list (string * ExperimentConfig.t Number))
  : comp (process W) unit :=
  test_regression_model_loop model_generator datasets_config;;
  print "All models have satisfactory errors.".

(** What the loop prints after a dataset whose error is under its
    threshold, line 43. *)
Definition rmse_ok_line (mse max_mse : Number) : string :=
  newline +:+ "RMSE=" +:+ str_number mse
  +:+ " OK (expected less than " +:+ str_number max_mse +:+ ").".

(** The message of the [assert] of line 42. *)
Definition rmse_too_high (model_str : string) (mse max_mse : Number)
    (dataset_name : string) : string :=
  "Model " +:+ model_str +:+ " achieved " +:+ str_number mse
  +:+ " rmse, more than  " +:+ str_number max_mse
  +:+ " which is the maximum expected for dataset " +:+ dataset_name +:+ ".".

(** [passes model_generator items p p']: from the process [p], one dataset
    of [items] after the other, [test_model] returns an error that is
    under the threshold of the dataset, and the line of line 43 is
    printed; [p'] is the process after the last one. *)
Inductive passes (model_generator : Z -> Z -> comp (process W) Model)
  : list (string * ExperimentConfig.t Number) -> process W -> process W -> Prop :=
| passes_nil p : passes model_generator [] p p
| passes_cons dataset_name config items p model mse mae p1 p' :
    returns (test_model dataset_name model_generator
               (ExperimentConfig.epochs config) (ExperimentConfig.lr config))
            p (model, mse, mae) p1 ->
    lt mse (ExperimentConfig.max_mse config) = true ->
    passes model_generator items
           (printed (rmse_ok_line mse (ExperimentConfig.max_mse config)) p1) p' ->
    passes model_generator ((dataset_name, config) :: items) p p'.

End Harness.

(** The layers that [network2] lists. *)
Inductive layer (Linear Bias Activation : Type) : Type :=
| DenseLayer (dense : @Dense Linear Bias Activation)
| ActivationLayer (activation : Activation).
Arguments DenseLayer {Linear Bias Activation} dense.
Arguments ActivationLayer {Linear Bias Activation} activation.

Section Networks.
Context {Linear Bias Activation World Initializer Sequential : Type}.
Context (Zero RandomNormal : Initializer).
Context (Linear_init : Z -> Z -> Initializer -> comp World Linear).
Context (Bias_init : Z -> Initializer -> comp World Bias).
Context (Identity ReLU TanH Sigmoid Softmax : comp World Activation).
Context (ModelWithParameters_init : option string -> comp World string).
(** [sn.Sequential(layers, name)]. *)
Context (Sequential_init :
           list (layer Linear Bias Activation) -> string -> comp World Sequential).

(** [sn.Dense(input_size, output_size)], every other argument omitted:
    [sn] is the package [simplenn], whose [Dense] is the class of
    [models/dense.py] and whose [ReLU] is the class that [activation_dict]
    has under [relu]. *)
Definition sn_Dense (input_size output_size : Z)
  : comp World (@Dense Linear Bias Activation) :=
  Dense_init Zero RandomNormal Linear_init Bias_init
    Identity ReLU TanH Sigmoid Softmax ModelWithParameters_init
    input_size output_size None None None None.

(** [network2], lines 79-83: the items of the list are built from left to
    right, then the container. *)
Definition network2 (din dout : Z) : comp World Sequential :=
  dense1 ← sn_Dense din din;
  relu ← ReLU;
  dense2 ← sn_Dense din dout;
  let layers := [DenseLayer dense1; ActivationLayer relu; DenseLayer dense2] in
  Sequential_init layers "network2".

End Networks.

(** ** A stand-in for the imported library *)

Module Stub.

(** A library small enough to run: arrays are integers, a dataset is the
    length of its name, nothing is learnt, and the error of any model on a
    dataset is that length. *)
#[global] Instance library : Library unit Z Z string unit unit := {
  load_regression dataset_name := ret (Z.of_nat (String.length dataset_name), 0%Z);
  mean_axis0 x := 0%Z;
  std_axis0 x := 1%Z;
  subtract := Z.sub;
  divide := Z.div;
  shape x := (x, 1%Z);
  lt := Z.ltb;
  str_number := pretty;
  str_model model := ret model;
  StochasticGradientDescent batch_size epochs lr := ret tt;
  SquaredError := ret tt;
  MeanError error := ret tt;
  optimize optimizer model x y error := ret tt;
  forward model x := ret x;
  rmse y y_pred := ret (y_pred - y)%Z;
  mae y y_pred := ret 0%Z;
}.

Definition model_generator (din dout : Z) : comp (process unit) string := ret "m".

Definition start : process unit := mkProcess [] tt.

(** Modelled from the spec: the Sequential container of section 4.3
    ([simplenn/models/sequential.py] is not among the sources), as far as
    its construction goes: it keeps the layers and the name. *)
Definition Sequential_init
    (layers : list (layer Scalar.Linear Scalar.Bias Scalar.Activation))
    (name : string)
  : comp Z (string * list (layer Scalar.Linear Scalar.Bias Scalar.Activation)) :=
  ret (name, layers).

(** Two configurations: every dataset under its threshold, and one with
    [insurance], nine letters, over its threshold of 5. *)
Definition passing : list (string * ExperimentConfig.t Z) :=
  [("boston", ExperimentConfig.mk 10%Z 1%Z 1000%Z);
   ("wine", ExperimentConfig.mk 5%Z 1%Z 1000%Z)].

Definition failing : list (string * ExperimentConfig.t Z) :=
  [("boston", ExperimentConfig.mk 10%Z 1%Z 1000%Z);
   ("insurance", ExperimentConfig.mk 5%Z 1%Z 2000%Z);
   ("wine", ExperimentConfig.mk 5%Z 1%Z 1000%Z)].

End Stub.

(** * Properties *)

(** ** Dict displays *)

Section DictFacts.
Context {V : Type}.
Implicit Types (d : gmap string V) (ds : list (gmap string V)).

Lemma dict_unpack_nil : dict_unpack (V:=V) [] = ∅.
Proof. reflexivity. Qed.

(** One more unpacking at the end goes on top of the others. *)
Lemma dict_unpack_snoc ds d : dict_unpack (ds ++ [d]) = d ∪ dict_unpack ds.
Proof. unfold dict_unpack. by rewrite foldl_snoc. Qed.

Lemma dict_unpack_3 d1 d2 d3 : dict_unpack [d1; d2; d3] = d3 ∪ (d2 ∪ d1).
Proof. unfold dict_unpack. simpl. by rewrite (right_id_L ∅ (∪)). Qed.

(** The keys of a display are the keys of its unpackings. *)
Lemma dom_dict_unpack ds : dom (dict_unpack ds) = ⋃ (dom <$> ds).
Proof.
  induction ds as [|d ds IH] using rev_ind.
  - rewrite dict_unpack_nil. by rewrite dom_empty_L.
  - rewrite dict_unpack_snoc, dom_union_L, IH.
    rewrite fmap_app, union_list_app_L. simpl.
    rewrite (right_id_L ∅ (∪)). apply (comm_L (∪)).
Qed.

(** A key is read from the last unpacking that has it. *)
Lemma dict_unpack_lookup_last ds d ds' k v :
  d !! k = Some v ->
  Forall (fun d' => d' !! k = None) ds' ->
  dict_unpack (ds ++ d :: ds') !! k = Some v.
Proof.
  intros Hd. induction ds' as [|d' ds' IH] using rev_ind; intros Hnone.
  - rewrite dict_unpack_snoc. by apply lookup_union_Some_l.
  - apply Forall_app in Hnone as [Hds' Hd'].
    rewrite Forall_singleton in Hd'.
    replace (ds ++ d :: ds' ++ [d']) with ((ds ++ d :: ds') ++ [d'])
      by (by rewrite <- app_assoc).
    rewrite dict_unpack_snoc, lookup_union_r by done. by apply IH.
Qed.

(** The display overwrites: the later of two entries for a key wins. *)
Lemma dict_unpack_later_wins ds : later_wins ds (dict_unpack ds).
Proof.
  intros ds1 earlier ds2 later ds3 k v -> _ Hlater Hnone.
  replace (ds1 ++ earlier :: ds2 ++ later :: ds3)
    with ((ds1 ++ earlier :: ds2) ++ later :: ds3)
    by (by rewrite <- app_assoc).
  by apply dict_unpack_lookup_last.
Qed.

(** An empty unpacking adds nothing, wherever it stands. *)
Lemma dict_unpack_empty ds ds' : dict_unpack (ds ++ ∅ :: ds') = dict_unpack (ds ++ ds').
Proof.
  induction ds' as [|d' ds' IH] using rev_ind.
  - rewrite dict_unpack_snoc, app_nil_r. by rewrite (left_id_L ∅ (∪)).
  - replace (ds ++ ∅ :: ds' ++ [d']) with ((ds ++ ∅ :: ds') ++ [d'])
      by (by rewrite <- app_assoc).
    rewrite app_assoc, !dict_unpack_snoc. by rewrite IH.
Qed.

(** Unpackings without a common key can be swapped. *)
Lemma dict_unpack_swap d1 d2 d3 :
  dom d1 ## dom d2 -> dict_unpack [d1; d2; d3] = dict_unpack [d2; d1; d3].
Proof.
  intros Hdisj. rewrite !dict_unpack_3. f_equal.
  apply map_union_comm. by apply map_disjoint_dom.
Qed.

End DictFacts.

(** ** The regression harness *)

(** C10: for every number of samples [n] the batch size of the harness,
    [min(n, min(16, max(64, n//32)))], is [min(n, 16)]: [max(64, n//32)] is
    at least 64, so the inner [min] is 16 whatever [n] is.  The batch size
    never exceeds 16, and it stays 16 from 16 samples on, however much the
    dataset grows. *)
Theorem batch_size_min_16 (n : Z) :
  (64 <= Z.max 64 (n / 32))%Z
  ∧ Z.min 16 (Z.max 64 (n / 32)) = 16%Z
  ∧ Regression.batch_size n = Z.min n 16
  ∧ (Regression.batch_size n <= 16)%Z
  ∧ Regression.batch_size (Z.max 16 n) = 16%Z.
Proof.
  unfold Regression.batch_size.
  assert (Hinner : ∀ m : Z, Z.min 16 (Z.max 64 (m / 32)) = 16%Z)
    by (intros m; lia).
  rewrite !Hinner. repeat split; lia.
Qed.

(** ** Computations *)

Section CompFacts.
Context {S A B : Type}.

Lemma read_only_bind (m : comp S A) (k : A -> comp S B) :
  read_only m -> (∀ a, read_only (k a)) -> read_only (m ≫= k).
Proof.
  intros Hm Hk s. unfold mbind, comp_bind, bind.
  specialize (Hm s). destruct (m s) as [[a|e] s']; simpl in *; subst s'.
  - apply Hk.
  - reflexivity.
Qed.

Lemma read_only_ret (a : A) : read_only (S:=S) (mret a).
Proof. intros s. reflexivity. Qed.

End CompFacts.

(** ** Calls on the children *)

Section SelfFacts.
Context {Linear Bias Activation : Type}.
Implicit Types self : @Dense Linear Bias Activation.

(** A child call that leaves the child as it was leaves the block as it
    was. *)
Lemma self_linear_read_only {A} (m : comp Linear A) :
  read_only m -> read_only (self_linear (Bias:=Bias) (Activation:=Activation) m).
Proof.
  intros Hm self. unfold self_linear. specialize (Hm (linear self)).
  destruct (m (linear self)) as [r l]. simpl in *. subst l. by destruct self.
Qed.

Lemma self_bias_read_only {A} (m : comp Bias A) :
  read_only m -> read_only (self_bias (Linear:=Linear) (Activation:=Activation) m).
Proof.
  intros Hm self. unfold self_bias. specialize (Hm (bias self)).
  destruct (m (bias self)) as [r b]. simpl in *. subst b. by destruct self.
Qed.

Lemma self_activation_read_only {A} (m : comp Activation A) :
  read_only m -> read_only (self_activation (Linear:=Linear) (Bias:=Bias) m).
Proof.
  intros Hm self. unfold self_activation. specialize (Hm (activation self)).
  destruct (m (activation self)) as [r a]. simpl in *. subst a. by destruct self.
Qed.

End SelfFacts.

Create HintDb read_only.
#[global] Hint Resolve read_only_ret self_linear_read_only self_bias_read_only
  self_activation_read_only : read_only.

(** ** The Dense block: forward and backward *)

Section DenseFacts.
Context {Tensor : Type}.
Context {Linear Bias Activation : Type} {CacheL CacheB CacheA : Type}.
Context `{!Model Tensor Linear CacheL, !Model Tensor Bias CacheB,
          !Model Tensor Activation CacheA}.
Implicit Types (self : @Dense Linear Bias Activation) (x y δ : Tensor).
Implicit Types (g p : gmap string Tensor).

(** Every run of the forward pass: the children are called in the order
    linear, bias, activation, and the first one that raises ends the
    call. *)
Lemma Dense_forward_with_cache_run x self :
  Dense_forward_with_cache x self =
  match forward_with_cache x (linear self) with
  | (Raised e, l) => (Raised e, mkDense l (bias self) (activation self) (name self))
  | (Returned (y_linear, cache_linear), l) =>
    match forward_with_cache y_linear (bias self) with
    | (Raised e, b) => (Raised e, mkDense l b (activation self) (name self))
    | (Returned (y_bias, cache_bias), b) =>
      match forward_with_cache y_bias (activation self) with
      | (Raised e, a) => (Raised e, mkDense l b a (name self))
      | (Returned (y_activation, cache_activation), a) =>
        (Returned (y_activation, (cache_linear, cache_bias, cache_activation)),
         mkDense l b a (name self))
      end
    end
  end.
Proof.
  unfold Dense_forward_with_cache, mbind, comp_bind, bind.
  unfold self_linear, self_bias, self_activation. simpl.
  destruct (forward_with_cache x (linear self)) as [[[y1 c1]|e] l]; [|done].
  simpl. destruct (forward_with_cache y1 (bias self)) as [[[y2 c2]|e] b]; [|done].
  simpl. by destruct (forward_with_cache y2 (activation self)) as [[[y3 c3]|e] a].
Qed.

(** Every run of the backward pass: activation, bias, linear. *)
Lemma Dense_backward_run δ (cache_linear : CacheL) (cache_bias : CacheB)
    (cache_activation : CacheA) self :
  Dense_backward δ (cache_linear, cache_bias, cache_activation) self =
  match backward δ cache_activation (activation self) with
  | (Raised e, a) => (Raised e, mkDense (linear self) (bias self) a (name self))
  | (Returned (δ_activation, g_activation), a) =>
    match backward δ_activation cache_bias (bias self) with
    | (Raised e, b) => (Raised e, mkDense (linear self) b a (name self))
    | (Returned (δ_bias, g_bias), b) =>
      match backward δ_bias cache_linear (linear self) with
      | (Raised e, l) => (Raised e, mkDense l b a (name self))
      | (Returned (δ_linear, g_linear), l) =>
        (Returned (δ_linear, dict_unpack [g_bias; g_linear; g_activation]),
         mkDense l b a (name self))
      end
    end
  end.
Proof.
  unfold Dense_backward, mbind, comp_bind, bind.
  unfold self_linear, self_bias, self_activation. simpl.
  destruct (backward δ cache_activation (activation self)) as [[[δa ga]|e] a]; [|done].
  simpl. destruct (backward δa cache_bias (bias self)) as [[[δb gb]|e] b]; [|done].
  simpl. by destruct (backward δb cache_linear (linear self)) as [[[δl gl]|e] l].
Qed.

(** Every run of [get_parameters]: linear, bias, activation. *)
Lemma Dense_get_parameters_run self :
  Dense_get_parameters self =
  match get_parameters (linear self) with
  | (Raised e, l) => (Raised e, mkDense l (bias self) (activation self) (name self))
  | (Returned p_linear, l) =>
    match get_parameters (bias self) with
    | (Raised e, b) => (Raised e, mkDense l b (activation self) (name self))
    | (Returned p_bias, b) =>
      match get_parameters (activation self) with
      | (Raised e, a) => (Raised e, mkDense l b a (name self))
      | (Returned p_activation, a) =>
        (Returned (dict_unpack [p_linear; p_bias; p_activation]),
         mkDense l b a (name self))
      end
    end
  end.
Proof.
  unfold Dense_get_parameters, mbind, comp_bind, bind.
  unfold self_linear, self_bias, self_activation. simpl.
  destruct (get_parameters (linear self)) as [[pl|e] l]; [|done].
  simpl. destruct (get_parameters (bias self)) as [[pb|e] b]; [|done].
  simpl. by destruct (get_parameters (activation self)) as [[pa|e] a].
Qed.

(** C1: for every input [x] and every Dense block, when the owned
    Linear's forward pass on [x] returns [y_linear], the owned Bias's on
    [y_linear] returns [y_bias] and the owned Activation's on [y_bias]
    returns [y_activation], [Dense.forward_with_cache(x)] returns
    [y_activation], that is [activation(bias(linear(x)))], together with
    the 3-tuple [(cache_linear, cache_bias, cache_activation)] of the
    three children's caches in that order. *)
Theorem Dense_forward_with_cache_composes x self
    y_linear cache_linear l y_bias cache_bias b y_activation cache_activation a :
  returns (forward_with_cache x) (linear self) (y_linear, cache_linear) l ->
  returns (forward_with_cache y_linear) (bias self) (y_bias, cache_bias) b ->
  returns (forward_with_cache y_bias) (activation self)
          (y_activation, cache_activation) a ->
  returns (Dense_forward_with_cache x) self
          (y_activation, (cache_linear, cache_bias, cache_activation))
          (mkDense l b a (name self)).
Proof.
  unfold returns. intros Hl Hb Ha.
  rewrite Dense_forward_with_cache_run, Hl, Hb, Ha. reflexivity.
Qed.

(** X1: the forward pass returns only in that way: when
    [Dense.forward_with_cache(x)] returns [y] and a cache, the Linear
    returned some [y_linear] on [x] with the first cache, the Bias some
    [y_bias] on [y_linear] with the second, the Activation [y] on [y_bias]
    with the third, the children are left as those calls left them, and
    the name of the block is untouched. *)
Lemma Dense_forward_with_cache_returns_inv x self y cache self' :
  returns (Dense_forward_with_cache x) self (y, cache) self' ->
  ∃ y_linear y_bias,
    returns (forward_with_cache x) (linear self) (y_linear, cache.1.1) (linear self')
    ∧ returns (forward_with_cache y_linear) (bias self) (y_bias, cache.1.2) (bias self')
    ∧ returns (forward_with_cache y_bias) (activation self) (y, cache.2)
              (activation self')
    ∧ name self' = name self.
Proof.
  unfold returns. rewrite Dense_forward_with_cache_run.
  destruct (forward_with_cache x (linear self)) as [[[y1 c1]|e] l]; [|done].
  destruct (forward_with_cache y1 (bias self)) as [[[y2 c2]|e] b] eqn:Hb; [|done].
  destruct (forward_with_cache y2 (activation self)) as [[[y3 c3]|e] a] eqn:Ha; [|done].
  intros [= <- <- <-]. exists y1, y2. simpl. by rewrite Hb, Ha.
Qed.

(** C2: for every upstream gradient [δEδy] and every cache 3-tuple,
    [Dense.backward] goes through the tuple in reverse: the Activation's
    backward is called on [δEδy] with [cache_activation], the gradient it
    returns goes into the Bias's backward with [cache_bias], the gradient
    that one returns goes into the Linear's backward with [cache_linear],
    and the Linear's downstream gradient is the [δEδx] the block
    returns. *)
Theorem Dense_backward_reverse_order δEδy cache_linear cache_bias cache_activation self
    δEδx_activation δEδactivation a δEδx_bias δEδbias b δEδx δEδlinear l :
  returns (backward δEδy cache_activation) (activation self)
          (δEδx_activation, δEδactivation) a ->
  returns (backward δEδx_activation cache_bias) (bias self) (δEδx_bias, δEδbias) b ->
  returns (backward δEδx_bias cache_linear) (linear self) (δEδx, δEδlinear) l ->
  ∃ δEδdense,
    returns (Dense_backward δEδy (cache_linear, cache_bias, cache_activation)) self
            (δEδx, δEδdense) (mkDense l b a (name self)).
Proof.
  unfold returns. intros Ha Hb Hl. eexists.
  rewrite Dense_backward_run, Ha, Hb, Hl. reflexivity.
Qed.

(** The backward pass stops at the first child that raises: the children
    after it in the order activation, bias, linear are not called. *)
Lemma Dense_backward_activation_raises δEδy cache_linear cache_bias cache_activation
    self e a :
  backward δEδy cache_activation (activation self) = (Raised e, a) ->
  Dense_backward δEδy (cache_linear, cache_bias, cache_activation) self
  = (Raised e, mkDense (linear self) (bias self) a (name self)).
Proof. intros Ha. by rewrite Dense_backward_run, Ha. Qed.

Lemma Dense_backward_bias_raises δEδy cache_linear cache_bias cache_activation
    self δEδx_activation δEδactivation a e b :
  backward δEδy cache_activation (activation self)
  = (Returned (δEδx_activation, δEδactivation), a) ->
  backward δEδx_activation cache_bias (bias self) = (Raised e, b) ->
  Dense_backward δEδy (cache_linear, cache_bias, cache_activation) self
  = (Raised e, mkDense (linear self) b a (name self)).
Proof. intros Ha Hb. by rewrite Dense_backward_run, Ha, Hb. Qed.

(** C3: for every backward call on a Dense block, the parameter-gradient
    mapping it returns has for keys the union of the keys of the three
    children's mappings (bias, linear, activation), and a child that owns
    no parameter, whose mapping is empty, contributes nothing: the result
    is the merge of the other two. *)
Theorem Dense_backward_param_grads_key_union δEδy cache_linear cache_bias
    cache_activation self
    δEδx_activation δEδactivation a δEδx_bias δEδbias b δEδx δEδlinear l :
  returns (backward δEδy cache_activation) (activation self)
          (δEδx_activation, δEδactivation) a ->
  returns (backward δEδx_activation cache_bias) (bias self) (δEδx_bias, δEδbias) b ->
  returns (backward δEδx_bias cache_linear) (linear self) (δEδx, δEδlinear) l ->
  ∃ δEδdense,
    returns (Dense_backward δEδy (cache_linear, cache_bias, cache_activation)) self
            (δEδx, δEδdense) (mkDense l b a (name self))
    ∧ dom δEδdense = dom δEδbias ∪ dom δEδlinear ∪ dom δEδactivation
    ∧ (∀ k v, δEδdense !! k = Some v ->
         δEδbias !! k = Some v ∨ δEδlinear !! k = Some v ∨ δEδactivation !! k = Some v)
    ∧ (δEδactivation = ∅ -> δEδdense = dict_unpack [δEδbias; δEδlinear])
    ∧ (δEδlinear = ∅ -> δEδdense = dict_unpack [δEδbias; δEδactivation])
    ∧ (δEδbias = ∅ -> δEδdense = dict_unpack [δEδlinear; δEδactivation])
    ∧ (δEδbias = ∅ -> δEδlinear = ∅ -> δEδactivation = ∅ -> δEδdense = ∅).
Proof.
  unfold returns. intros Ha Hb Hl.
  exists (dict_unpack [δEδbias; δEδlinear; δEδactivation]).
  split; [by rewrite Dense_backward_run, Ha, Hb, Hl|].
  split; [rewrite dom_dict_unpack; simpl; by rewrite (right_id_L ∅ (∪)), (assoc_L (∪))|].
  split.
  { intros k v. rewrite dict_unpack_3, !lookup_union_Some_raw. tauto. }
  split; [intros ->; apply (dict_unpack_empty [δEδbias; δEδlinear] [])|].
  split; [intros ->; apply (dict_unpack_empty [δEδbias] [δEδactivation])|].
  split; [intros ->; apply (dict_unpack_empty [] [δEδlinear; δEδactivation])|].
  intros -> -> ->. reflexivity.
Qed.

(** C6: for every Dense block, [get_parameters] returns a mapping whose
    keys are the union of the keys of the parameter mappings of the Linear,
    Bias and Activation children, each value being that of a child.  It is
    merged as the gradients are in [backward], by a display in which a
    later unpacking overwrites; the children are unpacked in the order
    linear, bias, activation, and with the names of Linear and Bias
    distinct, as the method assumes, the mapping is the one that the
    display of [backward] (bias, linear, activation) makes of the same
    three mappings. *)
Theorem Dense_get_parameters_key_union self p_linear l p_bias b p_activation a :
  returns get_parameters (linear self) p_linear l ->
  returns get_parameters (bias self) p_bias b ->
  returns get_parameters (activation self) p_activation a ->
  ∃ p,
    returns Dense_get_parameters self p (mkDense l b a (name self))
    ∧ dom p = dom p_linear ∪ dom p_bias ∪ dom p_activation
    ∧ (∀ k v, p !! k = Some v ->
         p_linear !! k = Some v ∨ p_bias !! k = Some v ∨ p_activation !! k = Some v)
    ∧ later_wins [p_linear; p_bias; p_activation] p
    ∧ (dom p_linear ## dom p_bias ->
       p = dict_unpack [p_bias; p_linear; p_activation]).
Proof.
  unfold returns. intros Hl Hb Ha.
  exists (dict_unpack [p_linear; p_bias; p_activation]).
  split; [by rewrite Dense_get_parameters_run, Hl, Hb, Ha|].
  split; [rewrite dom_dict_unpack; simpl; by rewrite (right_id_L ∅ (∪)), (assoc_L (∪))|].
  split.
  { intros k v. rewrite dict_unpack_3, !lookup_union_Some_raw. tauto. }
  split; [apply dict_unpack_later_wins|].
  apply dict_unpack_swap.
Qed.

(** Children whose forward passes have no side effect make a block whose
    forward pass has none. *)
Lemma Dense_forward_with_cache_read_only :
  (∀ x', read_only (forward_with_cache (L:=Linear) x')) ->
  (∀ x', read_only (forward_with_cache (L:=Bias) x')) ->
  (∀ x', read_only (forward_with_cache (L:=Activation) x')) ->
  ∀ x, read_only (S:=@Dense Linear Bias Activation) (Dense_forward_with_cache x).
Proof.
  intros Hl Hb Ha x. unfold Dense_forward_with_cache.
  apply read_only_bind; [auto with read_only|]. intros [y1 c1].
  apply read_only_bind; [auto with read_only|]. intros [y2 c2].
  apply read_only_bind; [auto with read_only|]. intros [y3 c3].
  auto with read_only.
Qed.

(** Whatever the children, as long as their forward passes have no side
    effect: [forward_with_cache(x)] called twice in a row gives the same
    outcome both times, output and cache alike, and after either call the
    block is what it was before. *)
Theorem Dense_forward_with_cache_idempotent x self :
  (∀ x', read_only (forward_with_cache (L:=Linear) x')) ->
  (∀ x', read_only (forward_with_cache (L:=Bias) x')) ->
  (∀ x', read_only (forward_with_cache (L:=Activation) x')) ->
  let first := Dense_forward_with_cache x self in
  let second := Dense_forward_with_cache x first.2 in
  second.1 = first.1
  ∧ first.2 = self
  ∧ second.2 = self
  ∧ Dense_get_parameters first.2 = Dense_get_parameters self
  ∧ Dense_get_parameters second.2 = Dense_get_parameters self.
Proof.
  intros Hl Hb Ha first second. subst second first.
  rewrite !(Dense_forward_with_cache_read_only Hl Hb Ha x self). auto.
Qed.

(** C8: when two children of a Dense block use the same parameter name,
    the merges of [backward] and of [get_parameters] return all the same,
    no exception being raised, and the merged mapping holds for that name
    the entry of the child unpacked later: the earlier entry is
    overwritten. *)
Theorem Dense_merges_overwrite_silently δEδy cache_linear cache_bias cache_activation
    self δEδx_activation δEδactivation a δEδx_bias δEδbias b δEδx δEδlinear l
    p_linear l' p_bias b' p_activation a' :
  returns (backward δEδy cache_activation) (activation self)
          (δEδx_activation, δEδactivation) a ->
  returns (backward δEδx_activation cache_bias) (bias self) (δEδx_bias, δEδbias) b ->
  returns (backward δEδx_bias cache_linear) (linear self) (δEδx, δEδlinear) l ->
  returns get_parameters (linear self) p_linear l' ->
  returns get_parameters (bias self) p_bias b' ->
  returns get_parameters (activation self) p_activation a' ->
  ∃ δEδdense p,
    returns (Dense_backward δEδy (cache_linear, cache_bias, cache_activation)) self
            (δEδx, δEδdense) (mkDense l b a (name self))
    ∧ returns Dense_get_parameters self p (mkDense l' b' a' (name self))
    ∧ later_wins [δEδbias; δEδlinear; δEδactivation] δEδdense
    ∧ later_wins [p_linear; p_bias; p_activation] p.
Proof.
  unfold returns. intros Ha Hb Hl Hl' Hb' Ha'.
  exists (dict_unpack [δEδbias; δEδlinear; δEδactivation]),
         (dict_unpack [p_linear; p_bias; p_activation]).
  split; [by rewrite Dense_backward_run, Ha, Hb, Hl|].
  split; [by rewrite Dense_get_parameters_run, Hl', Hb', Ha'|].
  split; apply dict_unpack_later_wins.
Qed.

(** C9: [backward] merges in the order bias, linear, activation and
    [get_parameters] in the order linear, bias, activation.  So for a name
    that Linear and Bias both use, [backward] keeps the gradient of Linear,
    not that of Bias, and [get_parameters] keeps the value of Bias, not
    that of Linear (an entry of the Activation for that name, unpacked last
    in both, would go on top in both). *)
Theorem Dense_merge_precedence_differs δEδy cache_linear cache_bias cache_activation
    self δEδx_activation δEδactivation a δEδx_bias δEδbias b δEδx δEδlinear l
    p_linear l' p_bias b' p_activation a' k g_linear g_bias v_linear v_bias :
  returns (backward δEδy cache_activation) (activation self)
          (δEδx_activation, δEδactivation) a ->
  returns (backward δEδx_activation cache_bias) (bias self) (δEδx_bias, δEδbias) b ->
  returns (backward δEδx_bias cache_linear) (linear self) (δEδx, δEδlinear) l ->
  returns get_parameters (linear self) p_linear l' ->
  returns get_parameters (bias self) p_bias b' ->
  returns get_parameters (activation self) p_activation a' ->
  δEδlinear !! k = Some g_linear ->
  δEδbias !! k = Some g_bias ->
  p_linear !! k = Some v_linear ->
  p_bias !! k = Some v_bias ->
  ∃ δEδdense p,
    returns (Dense_backward δEδy (cache_linear, cache_bias, cache_activation)) self
            (δEδx, δEδdense) (mkDense l b a (name self))
    ∧ returns Dense_get_parameters self p (mkDense l' b' a' (name self))
    ∧ δEδdense = dict_unpack [δEδbias; δEδlinear; δEδactivation]
    ∧ p = dict_unpack [p_linear; p_bias; p_activation]
    ∧ δEδdense !! k = Some (default g_linear (δEδactivation !! k))
    ∧ p !! k = Some (default v_bias (p_activation !! k))
    ∧ (δEδactivation !! k = None -> δEδdense !! k = Some g_linear)
    ∧ (p_activation !! k = None -> p !! k = Some v_bias).
Proof.
  unfold returns. intros Ha Hb Hl Hl' Hb' Ha' Hgl Hgb Hvl Hvb.
  exists (dict_unpack [δEδbias; δEδlinear; δEδactivation]),
         (dict_unpack [p_linear; p_bias; p_activation]).
  split; [by rewrite Dense_backward_run, Ha, Hb, Hl|].
  split; [by rewrite Dense_get_parameters_run, Hl', Hb', Ha'|].
  do 2 (split; [reflexivity|]).
  rewrite !dict_unpack_3, !lookup_union, Hgl, Hgb, Hvl, Hvb.
  repeat split.
  - by destruct (δEδactivation !! k).
  - by destruct (p_activation !! k).
  - by intros ->.
  - by intros ->.
Qed.

End DenseFacts.

(** ** Construction *)

Section InitFacts.
Context {Linear Bias Activation World Initializer : Type}.
Context (Zero RandomNormal : Initializer).
Context (Linear_init : Z -> Z -> Initializer -> comp World Linear).
Context (Bias_init : Z -> Initializer -> comp World Bias).
Context (Identity ReLU TanH Sigmoid Softmax : comp World Activation).
Context (ModelWithParameters_init : option string -> comp World string).

Local Abbreviation activations :=
  (activation_dict Identity ReLU TanH Sigmoid Softmax).
Local Abbreviation init :=
  (Dense_init Zero RandomNormal Linear_init Bias_init
     Identity ReLU TanH Sigmoid Softmax ModelWithParameters_init).

(** The names of the literal of lines 10-15, in its order. *)
Lemma activation_dict_keys :
  dict_keys activations = ["id"; "relu"; "tanh"; "sigmoid"; "softmax"].
Proof. reflexivity. Qed.

(** Lookup in an item list: a key that is not among the keys is not found,
    and a key that occurs once is found with its item. *)
Lemma dict_getitem_None {V} (d : list (string * V)) k :
  k ∉ dict_keys d -> dict_getitem d k = None.
Proof.
  induction d as [|[k' v] d IH]; simpl; [done|].
  intros [Hne Hk]%not_elem_of_cons. case_decide; [congruence|]. by apply IH.
Qed.

Lemma dict_getitem_Some {V} (d : list (string * V)) k v :
  NoDup (dict_keys d) -> (k, v) ∈ d -> dict_getitem d k = Some v.
Proof.
  induction d as [|[k' v'] d IH]; simpl; [by intros _ ?%elem_of_nil|].
  intros [Hk' Hnd]%NoDup_cons [[= -> ->]|Hin]%elem_of_cons.
  - by rewrite decide_True.
  - case_decide as Heq; [|by apply IH].
    subst k'. exfalso. apply Hk'.
    unfold dict_keys. apply list_elem_of_fmap. by exists (k, v).
Qed.

Lemma activation_dict_NoDup : NoDup (dict_keys activations).
Proof. rewrite activation_dict_keys. by apply (bool_decide_unpack _). Qed.

(** Every run of the constructor: Linear, Bias, the activation looked up
    by name and built, the base class. *)
Lemma Dense_init_run input_size output_size activation_name
    linear_initializer bias_initializer name world :
  init input_size output_size activation_name
       linear_initializer bias_initializer name world =
  match Linear_init input_size output_size
                    (default RandomNormal linear_initializer) world with
  | (Raised e, world1) => (Raised e, world1)
  | (Returned l, world1) =>
    match Bias_init output_size (default Zero bias_initializer) world1 with
    | (Raised e, world2) => (Raised e, world2)
    | (Returned b, world2) =>
      match dict_getitem activations (default "id" activation_name) with
      | None =>
        (Raised (ValueError ("Unknown activation function "
                             +:+ default "id" activation_name
                             +:+ ". Available activations: "
                             +:+ join "," (dict_keys activations))), world2)
      | Some cls =>
        match cls world2 with
        | (Raised e, world3) => (Raised e, world3)
        | (Returned a, world3) =>
          match ModelWithParameters_init name world3 with
          | (Raised e, world4) => (Raised e, world4)
          | (Returned n, world4) =>
            (Returned (mkDense l b a
                         (n +:+ "(" +:+ default "id" activation_name +:+ ")")),
             world4)
          end
        end
      end
    end
  end.
Proof.
  unfold Dense_init, mbind, comp_bind, bind, raise.
  destruct (Linear_init _ _ _ world) as [[l|e] world1]; [|done].
  destruct (Bias_init _ _ world1) as [[b|e] world2]; [|done].
  change (match activation_name with Some s => s | None => "id" end)
    with (default "id" activation_name).
  destruct (dict_getitem _ _) as [cls|]; [|done].
  destruct (cls world2) as [[a|e] world3]; [|done].
  by destruct (ModelWithParameters_init name world3) as [[n|e] world4].
Qed.

(** C4: for every activation name that is not one of [id], [relu], [tanh],
    [sigmoid], [softmax], constructing a Dense block fails: the call
    raises, and once the Linear and the Bias are built it raises the
    [ValueError] whose message names the unsupported value and lists the
    five valid choices.  Every name that is one of the five has its class:
    [id] the Identity, [relu] the ReLU, [tanh] the TanH, [sigmoid] the
    Sigmoid, [softmax] the Softmax; and for each of these names
    construction succeeds (the children and the base class being built)
    and the activation of the block is the one that the class of the name
    builds. *)
Theorem Dense_init_activation_name input_size output_size (activation_name : string)
    linear_initializer bias_initializer name world :
  (activation_name ∉ ["id"; "relu"; "tanh"; "sigmoid"; "softmax"] ->
   (∃ e world',
      init input_size output_size (Some activation_name)
           linear_initializer bias_initializer name world = (Raised e, world'))
   ∧ (∀ l world1 b world2,
        returns (Linear_init input_size output_size
                   (default RandomNormal linear_initializer)) world l world1 ->
        returns (Bias_init output_size (default Zero bias_initializer)) world1 b world2 ->
        init input_size output_size (Some activation_name)
             linear_initializer bias_initializer name world
        = (Raised (ValueError ("Unknown activation function " +:+ activation_name
                               +:+ ". Available activations: "
                               +:+ "id,relu,tanh,sigmoid,softmax")), world2)))
  ∧ (activation_name ∈ ["id"; "relu"; "tanh"; "sigmoid"; "softmax"] ->
     ∃ cls, (activation_name, cls)
            ∈ [("id", Identity); ("relu", ReLU); ("tanh", TanH);
               ("sigmoid", Sigmoid); ("softmax", Softmax)])
  ∧ (∀ cls, (activation_name, cls)
            ∈ [("id", Identity); ("relu", ReLU); ("tanh", TanH);
               ("sigmoid", Sigmoid); ("softmax", Softmax)] ->
     ∀ l world1 b world2 a world3 n world4,
       returns (Linear_init input_size output_size
                  (default RandomNormal linear_initializer)) world l world1 ->
       returns (Bias_init output_size (default Zero bias_initializer))
               world1 b world2 ->
       returns cls world2 a world3 ->
       returns (ModelWithParameters_init name) world3 n world4 ->
       returns (init input_size output_size (Some activation_name)
                     linear_initializer bias_initializer name) world
               (mkDense l b a (n +:+ "(" +:+ activation_name +:+ ")")) world4).
Proof.
  split.
  - intros Hnot. rewrite <- activation_dict_keys in Hnot.
    apply dict_getitem_None in Hnot. split.
    + rewrite Dense_init_run.
      change (default "id" (Some activation_name)) with activation_name.
      rewrite Hnot.
      destruct (Linear_init _ _ _ world) as [[l|e] world1]; [|by eauto].
      destruct (Bias_init _ _ world1) as [[b|e] world2]; by eauto.
    + unfold returns. intros l world1 b world2 Hl Hb.
      rewrite Dense_init_run, Hl, Hb.
      change (default "id" (Some activation_name)) with activation_name.
      by rewrite Hnot.
  - split.
    { intros Hin.
      repeat (apply elem_of_cons in Hin as [->|Hin];
              [eexists; repeat ((by left) || right)|]).
      by apply elem_of_nil in Hin. }
    intros cls Hcls.
    unfold returns. intros l world1 b world2 a world3 n world4 Hl Hb Ha Hn.
    rewrite Dense_init_run, Hl, Hb.
    change (default "id" (Some activation_name)) with activation_name.
    rewrite (dict_getitem_Some _ _ _ activation_dict_NoDup Hcls).
    by rewrite Ha, Hn.
Qed.

(** C5: a Dense block constructed without an activation name is the one
    constructed with [id], whose activation is the Identity; without a
    linear initializer, the one whose Linear is given the random-normal
    initializer; without a bias initializer, the one whose Bias is given
    the zero-fill initializer. *)
Theorem Dense_init_defaults input_size output_size
    activation_name linear_initializer bias_initializer name :
  init input_size output_size None linear_initializer bias_initializer name
  = init input_size output_size (Some "id") linear_initializer bias_initializer name
  ∧ init input_size output_size activation_name None bias_initializer name
    = init input_size output_size activation_name (Some RandomNormal)
           bias_initializer name
  ∧ init input_size output_size activation_name linear_initializer None name
    = init input_size output_size activation_name linear_initializer
           (Some Zero) name
  ∧ ∀ world l world1 b world2 a world3 n world4,
      returns (Linear_init input_size output_size RandomNormal) world l world1 ->
      returns (Bias_init output_size Zero) world1 b world2 ->
      returns Identity world2 a world3 ->
      returns (ModelWithParameters_init name) world3 n world4 ->
      returns (init input_size output_size None None None name) world
              (mkDense l b a (n +:+ "(id)")) world4.
Proof.
  do 3 (split; [reflexivity|]).
  unfold returns. intros world l world1 b world2 a world3 n world4 Hl Hb Ha Hn.
  rewrite Dense_init_run. simpl. by rewrite Hl, Hb, Ha, Hn.
Qed.

End InitFacts.

(** ** The Dense block: failures, frames and the merged mappings *)

Section SetFacts.
Implicit Types X Y Z : gset string.

(** A union has at most as many elements as its operands together, and
    exactly as many when they share none. *)
Lemma size_union_le X Y : (size (X ∪ Y) ≤ size X + size Y)%nat.
Proof.
  rewrite size_union_alt.
  assert (size (Y ∖ X) ≤ size Y)%nat
    by (by apply subseteq_size, subseteq_difference_l).
  lia.
Qed.

Lemma size_union_eq_disjoint X Y : size (X ∪ Y) = size X + size Y ↔ X ## Y.
Proof.
  split; [|apply size_union].
  rewrite size_union_alt. intros Hsize.
  assert (Y ∖ X = Y) as Heq.
  { apply set_subseteq_size_eq; [by apply subseteq_difference_l|lia]. }
  intros x Hx Hy. rewrite <- Heq in Hy.
  apply elem_of_difference in Hy as [_ Hnot]. by apply Hnot.
Qed.

Lemma size_union_3 X Y Z :
  (size (Z ∪ (Y ∪ X)) ≤ size X + size Y + size Z)%nat
  ∧ (size (Z ∪ (Y ∪ X)) = size X + size Y + size Z ↔ X ## Y ∧ X ## Z ∧ Y ## Z).
Proof.
  pose proof (size_union_le Z (Y ∪ X)) as Houter.
  pose proof (size_union_le Y X) as Hinner.
  pose proof (size_union_eq_disjoint Z (Y ∪ X)) as Houter_eq.
  pose proof (size_union_eq_disjoint Y X) as Hinner_eq.
  split; [lia|]. split.
  - intros Hsize.
    assert (Z ## Y ∪ X) as [Hzy Hzx]%disjoint_union_r by (apply Houter_eq; lia).
    assert (Y ## X) as Hyx by (apply Hinner_eq; lia).
    by repeat split.
  - intros (Hxy & Hxz & Hyz).
    assert (Z ## Y ∪ X) as Hz by (by apply disjoint_union_r).
    assert (Y ## X) as Hy by done.
    apply Houter_eq in Hz. apply Hinner_eq in Hy. lia.
Qed.

End SetFacts.

Section DictMore.
Context {V : Type}.
Implicit Types d : gmap string V.

(** Who is still there after [{**d1, **d2, **d3}]: all of [d3]; of [d2]
    what [d3] does not name; of [d1] what neither names. *)
Lemma dict_unpack_3_survivors d1 d2 d3 :
  d3 ⊆ dict_unpack [d1; d2; d3]
  ∧ (dom d2 ## dom d3 -> d2 ⊆ dict_unpack [d1; d2; d3])
  ∧ (dom d1 ## dom d2 -> dom d1 ## dom d3 -> d1 ⊆ dict_unpack [d1; d2; d3]).
Proof.
  rewrite dict_unpack_3. split; [apply map_union_subseteq_l|]. split.
  - intros H23. apply map_subseteq_spec. intros k v Hk.
    assert (d3 !! k = None) as Hk3.
    { apply not_elem_of_dom. intros Hin. apply (H23 k); [|done].
      apply elem_of_dom. by exists v. }
    rewrite lookup_union_r by done. by apply lookup_union_Some_l.
  - intros H12 H13. apply map_subseteq_spec. intros k v Hk.
    assert (k ∈ dom d1) as Hin by (apply elem_of_dom; by exists v).
    assert (d2 !! k = None) as Hk2.
    { apply not_elem_of_dom. intros Hin2. by apply (H12 k). }
    assert (d3 !! k = None) as Hk3.
    { apply not_elem_of_dom. intros Hin3. by apply (H13 k). }
    by rewrite !lookup_union_r.
Qed.

Lemma dict_unpack_3_size d1 d2 d3 :
  (size (dict_unpack [d1; d2; d3]) ≤ size d1 + size d2 + size d3)%nat
  ∧ (size (dict_unpack [d1; d2; d3]) = size d1 + size d2 + size d3
     ↔ dom d1 ## dom d2 ∧ dom d1 ## dom d3 ∧ dom d2 ## dom d3).
Proof.
  rewrite dict_unpack_3, <- !size_dom, !dom_union_L. apply size_union_3.
Qed.

End DictMore.

Section DenseMore.
Context {Tensor : Type}.
Context {Linear Bias Activation : Type} {CacheL CacheB CacheA : Type}.
Context `{!Model Tensor Linear CacheL, !Model Tensor Bias CacheB,
          !Model Tensor Activation CacheA}.
Implicit Types (self : @Dense Linear Bias Activation) (x y δ : Tensor).

(** X2: when [Dense.forward_with_cache(x)] raises, the exception is the
    one a child's forward pass raised, and the call stopped there: either
    the Linear raised on [x], Bias and Activation not being called; or the
    Linear returned and the Bias raised on its output, the Activation not
    being called; or both returned and the Activation raised.  The children
    that were not called are as they were, and so is the name. *)
Theorem Dense_forward_with_cache_raises_inv x self e self' :
  Dense_forward_with_cache x self = (Raised e, self') ->
  name self' = name self
  ∧ ((forward_with_cache x (linear self) = (Raised e, linear self')
      ∧ bias self' = bias self ∧ activation self' = activation self)
     ∨ (∃ y_linear cache_linear,
          returns (forward_with_cache x) (linear self)
                  (y_linear, cache_linear) (linear self')
          ∧ forward_with_cache y_linear (bias self) = (Raised e, bias self')
          ∧ activation self' = activation self)
     ∨ (∃ y_linear cache_linear y_bias cache_bias,
          returns (forward_with_cache x) (linear self)
                  (y_linear, cache_linear) (linear self')
          ∧ returns (forward_with_cache y_linear) (bias self)
                    (y_bias, cache_bias) (bias self')
          ∧ forward_with_cache y_bias (activation self)
            = (Raised e, activation self'))).
Proof.
  unfold returns. rewrite Dense_forward_with_cache_run.
  destruct (forward_with_cache x (linear self)) as [[[y1 c1]|e'] l] eqn:Hl.
  - destruct (forward_with_cache y1 (bias self)) as [[[y2 c2]|e'] b] eqn:Hb.
    + destruct (forward_with_cache y2 (activation self)) as [[[y3 c3]|e'] a] eqn:Ha;
        [done|].
      intros [= -> <-]. split; [done|]. right. right.
      exists y1, c1, y2, c2. simpl. by rewrite Hb, Ha.
    + intros [= -> <-]. split; [done|]. right. left.
      exists y1, c1. simpl. by rewrite Hb.
  - intros [= -> <-]. split; [done|]. by left.
Qed.

(** X3: when [Dense.backward] raises, the exception is the one a child's
    backward pass raised, in the order activation, bias, linear: either the
    Activation raised on the upstream gradient, Bias and Linear not being
    called; or it returned and the Bias raised on the gradient it passed
    down, the Linear not being called; or both returned and the Linear
    raised.  The merge of line 88 raises nothing, and no partial mapping
    is returned. *)
Theorem Dense_backward_raises_inv δEδy cache_linear cache_bias cache_activation
    self e self' :
  Dense_backward δEδy (cache_linear, cache_bias, cache_activation) self
  = (Raised e, self') ->
  name self' = name self
  ∧ ((backward δEδy cache_activation (activation self) = (Raised e, activation self')
      ∧ bias self' = bias self ∧ linear self' = linear self)
     ∨ (∃ δEδx_activation δEδactivation,
          returns (backward δEδy cache_activation) (activation self)
                  (δEδx_activation, δEδactivation) (activation self')
          ∧ backward δEδx_activation cache_bias (bias self) = (Raised e, bias self')
          ∧ linear self' = linear self)
     ∨ (∃ δEδx_activation δEδactivation δEδx_bias δEδbias,
          returns (backward δEδy cache_activation) (activation self)
                  (δEδx_activation, δEδactivation) (activation self')
          ∧ returns (backward δEδx_activation cache_bias) (bias self)
                    (δEδx_bias, δEδbias) (bias self')
          ∧ backward δEδx_bias cache_linear (linear self)
            = (Raised e, linear self'))).
Proof.
  unfold returns. rewrite Dense_backward_run.
  destruct (backward δEδy cache_activation (activation self))
    as [[[δa ga]|e'] a] eqn:Ha.
  - destruct (backward δa cache_bias (bias self)) as [[[δb gb]|e'] b] eqn:Hb.
    + destruct (backward δb cache_linear (linear self)) as [[[δl gl]|e'] l] eqn:Hl;
        [done|].
      intros [= -> <-]. split; [done|]. right. right.
      exists δa, ga, δb, gb. simpl. by rewrite Hb, Hl.
    + intros [= -> <-]. split; [done|]. right. left.
      exists δa, ga. simpl. by rewrite Hb.
  - intros [= -> <-]. split; [done|]. by left.
Qed.

(** X4: a [backward] followed by a [get_parameters] on the same block:
    when every child returns gradients for exactly the names of its
    parameters, so does the block; the merged gradients and the merged
    parameters have the same keys, also when children share names and
    although the two merges unpack Linear and Bias in opposite orders. *)
Theorem Dense_backward_keys_match_parameters δEδy cache_linear cache_bias
    cache_activation self
    δEδx_activation δEδactivation a δEδx_bias δEδbias b δEδx δEδlinear l
    p_linear l' p_bias b' p_activation a' :
  returns (backward δEδy cache_activation) (activation self)
          (δEδx_activation, δEδactivation) a ->
  returns (backward δEδx_activation cache_bias) (bias self) (δEδx_bias, δEδbias) b ->
  returns (backward δEδx_bias cache_linear) (linear self) (δEδx, δEδlinear) l ->
  returns get_parameters l p_linear l' ->
  returns get_parameters b p_bias b' ->
  returns get_parameters a p_activation a' ->
  dom δEδlinear = dom p_linear ->
  dom δEδbias = dom p_bias ->
  dom δEδactivation = dom p_activation ->
  ∃ δEδdense p self1,
    returns (Dense_backward δEδy (cache_linear, cache_bias, cache_activation)) self
            (δEδx, δEδdense) self1
    ∧ returns Dense_get_parameters self1 p (mkDense l' b' a' (name self))
    ∧ dom δEδdense = dom p.
Proof.
  unfold returns. intros Ha Hb Hl Hl' Hb' Ha' Hdl Hdb Hda.
  exists (dict_unpack [δEδbias; δEδlinear; δEδactivation]),
         (dict_unpack [p_linear; p_bias; p_activation]),
         (mkDense l b a (name self)).
  split; [by rewrite Dense_backward_run, Ha, Hb, Hl|].
  split; [rewrite Dense_get_parameters_run; simpl; by rewrite Hl', Hb', Ha'|].
  rewrite !dict_unpack_3, !dom_union_L, Hdl, Hdb, Hda.
  f_equal. apply (comm_L (∪)).
Qed.

(** X5: what [get_parameters] keeps of each child: every entry of the
    Activation; every entry of the Bias when the Activation names none of
    its parameters; every entry of the Linear when neither Bias nor
    Activation names one of them.  With distinct names nothing is lost. *)
Theorem Dense_get_parameters_keeps self p_linear l p_bias b p_activation a :
  returns get_parameters (linear self) p_linear l ->
  returns get_parameters (bias self) p_bias b ->
  returns get_parameters (activation self) p_activation a ->
  ∃ p,
    returns Dense_get_parameters self p (mkDense l b a (name self))
    ∧ p_activation ⊆ p
    ∧ (dom p_bias ## dom p_activation -> p_bias ⊆ p)
    ∧ (dom p_linear ## dom p_bias -> dom p_linear ## dom p_activation ->
       p_linear ⊆ p).
Proof.
  unfold returns. intros Hl Hb Ha.
  exists (dict_unpack [p_linear; p_bias; p_activation]).
  split; [by rewrite Dense_get_parameters_run, Hl, Hb, Ha|].
  apply dict_unpack_3_survivors.
Qed.

(** X6: what [backward] keeps of each child's gradients: every entry of the
    Activation; every entry of the Linear when the Activation names none
    of them; every entry of the Bias when neither Linear nor Activation
    names one of them. *)
Theorem Dense_backward_keeps δEδy cache_linear cache_bias cache_activation self
    δEδx_activation δEδactivation a δEδx_bias δEδbias b δEδx δEδlinear l :
  returns (backward δEδy cache_activation) (activation self)
          (δEδx_activation, δEδactivation) a ->
  returns (backward δEδx_activation cache_bias) (bias self) (δEδx_bias, δEδbias) b ->
  returns (backward δEδx_bias cache_linear) (linear self) (δEδx, δEδlinear) l ->
  ∃ δEδdense,
    returns (Dense_backward δEδy (cache_linear, cache_bias, cache_activation)) self
            (δEδx, δEδdense) (mkDense l b a (name self))
    ∧ δEδactivation ⊆ δEδdense
    ∧ (dom δEδlinear ## dom δEδactivation -> δEδlinear ⊆ δEδdense)
    ∧ (dom δEδbias ## dom δEδlinear -> dom δEδbias ## dom δEδactivation ->
       δEδbias ⊆ δEδdense).
Proof.
  unfold returns. intros Ha Hb Hl.
  exists (dict_unpack [δEδbias; δEδlinear; δEδactivation]).
  split; [by rewrite Dense_backward_run, Ha, Hb, Hl|].
  apply dict_unpack_3_survivors.
Qed.

(** X7: [get_parameters] reports at most as many parameters as the three
    children own together, and exactly as many if and only if the names of
    Linear, Bias and Activation are pairwise distinct: a shared name makes
    a parameter disappear from the mapping. *)
Theorem Dense_get_parameters_size self p_linear l p_bias b p_activation a :
  returns get_parameters (linear self) p_linear l ->
  returns get_parameters (bias self) p_bias b ->
  returns get_parameters (activation self) p_activation a ->
  ∃ p,
    returns Dense_get_parameters self p (mkDense l b a (name self))
    ∧ (size p ≤ size p_linear + size p_bias + size p_activation)%nat
    ∧ (size p = (size p_linear + size p_bias + size p_activation)%nat
       ↔ dom p_linear ## dom p_bias
         ∧ dom p_linear ## dom p_activation
         ∧ dom p_bias ## dom p_activation).
Proof.
  unfold returns. intros Hl Hb Ha.
  exists (dict_unpack [p_linear; p_bias; p_activation]).
  split; [by rewrite Dense_get_parameters_run, Hl, Hb, Ha|].
  apply dict_unpack_3_size.
Qed.

(** X8: [backward] and [get_parameters] of a block have no side effect
    when those of the children have none: the block is left as it was,
    whether the call returns or raises, and [get_parameters] asked twice
    gives the same answer. *)
Theorem Dense_backward_get_parameters_read_only δEδy cache self :
  (∀ δ c, read_only (backward (L:=Linear) δ c)) ->
  (∀ δ c, read_only (backward (L:=Bias) δ c)) ->
  (∀ δ c, read_only (backward (L:=Activation) δ c)) ->
  read_only (get_parameters (L:=Linear)) ->
  read_only (get_parameters (L:=Bias)) ->
  read_only (get_parameters (L:=Activation)) ->
  (Dense_backward δEδy cache self).2 = self
  ∧ (Dense_get_parameters self).2 = self
  ∧ Dense_get_parameters (Dense_get_parameters self).2 = Dense_get_parameters self
  ∧ Dense_get_parameters (Dense_backward δEδy cache self).2
    = Dense_get_parameters self.
Proof.
  intros Hbl Hbb Hba Hpl Hpb Hpa.
  assert (read_only (S:=@Dense Linear Bias Activation) (Dense_backward δEδy cache))
    as Hback.
  { unfold Dense_backward. destruct cache as [[c1 c2] c3]. simpl.
    apply read_only_bind; [auto with read_only|]. intros [δa ga].
    apply read_only_bind; [auto with read_only|]. intros [δb gb].
    apply read_only_bind; [auto with read_only|]. intros [δl gl].
    auto with read_only. }
  assert (read_only (S:=@Dense Linear Bias Activation) Dense_get_parameters)
    as Hget.
  { unfold Dense_get_parameters.
    apply read_only_bind; [auto with read_only|]. intros pl.
    apply read_only_bind; [auto with read_only|]. intros pb.
    apply read_only_bind; [auto with read_only|]. intros pa.
    auto with read_only. }
  rewrite (Hback self), (Hget self). auto.
Qed.

End DenseMore.

(** ** Construction: failures *)

Section InitMore.
Context {Linear Bias Activation World Initializer : Type}.
Context (Zero RandomNormal : Initializer).
Context (Linear_init : Z -> Z -> Initializer -> comp World Linear).
Context (Bias_init : Z -> Initializer -> comp World Bias).
Context (Identity ReLU TanH Sigmoid Softmax : comp World Activation).
Context (ModelWithParameters_init : option string -> comp World string).

Local Abbreviation activations :=
  (activation_dict Identity ReLU TanH Sigmoid Softmax).
Local Abbreviation init :=
  (Dense_init Zero RandomNormal Linear_init Bias_init
     Identity ReLU TanH Sigmoid Softmax ModelWithParameters_init).

(** A key that is found is a key of the dict, with the item found. *)
Lemma dict_getitem_elem_of {V} (d : list (string * V)) k v :
  dict_getitem d k = Some v -> (k, v) ∈ d ∧ k ∈ dict_keys d.
Proof.
  induction d as [|[k' v'] d IH]; simpl; [done|].
  case_decide as Heq.
  - intros [= ->]. subst k'. split; apply list_elem_of_here.
  - intros [Hin Hkey]%IH. split; by apply list_elem_of_further.
Qed.

(** X9: the children are built before the activation name is looked at
    (lines 50-51 before lines 53-58): when the constructor of the Linear
    raises, or that of the Bias after it, [Dense.__init__] raises that very
    exception whatever the activation name, also an unsupported one, and
    nothing is built after the failure. *)
Theorem Dense_init_child_raises input_size output_size activation_name
    linear_initializer bias_initializer name world e world' :
  Linear_init input_size output_size (default RandomNormal linear_initializer) world
  = (Raised e, world')
  ∨ (∃ l world1,
       returns (Linear_init input_size output_size
                  (default RandomNormal linear_initializer)) world l world1
       ∧ Bias_init output_size (default Zero bias_initializer) world1
         = (Raised e, world')) ->
  init input_size output_size activation_name
       linear_initializer bias_initializer name world
  = (Raised e, world').
Proof.
  unfold returns. rewrite Dense_init_run.
  intros [Hl|(l & world1 & Hl & Hb)]; by rewrite Hl, ?Hb.
Qed.

(** X10: [Dense.__init__] returns only a block whose activation name, [id]
    when omitted, is one of [id], [relu], [tanh], [sigmoid], [softmax]: the
    Linear and the Bias were built with the given sizes and initializers
    (random-normal and zero when omitted), the activation by the class
    paired with the name, and the name of the block is the one the base
    class gave followed by the activation name in parentheses. *)
Theorem Dense_init_returns_inv input_size output_size activation_name
    linear_initializer bias_initializer name world self world' :
  returns (init input_size output_size activation_name
                linear_initializer bias_initializer name) world self world' ->
  default "id" activation_name ∈ ["id"; "relu"; "tanh"; "sigmoid"; "softmax"]
  ∧ ∃ cls l world1 b world2 a world3 n,
      (default "id" activation_name, cls) ∈ activations
      ∧ returns (Linear_init input_size output_size
                   (default RandomNormal linear_initializer)) world l world1
      ∧ returns (Bias_init output_size (default Zero bias_initializer)) world1 b world2
      ∧ returns cls world2 a world3
      ∧ returns (ModelWithParameters_init name) world3 n world'
      ∧ self = mkDense l b a (n +:+ "(" +:+ default "id" activation_name +:+ ")").
Proof.
  unfold returns. rewrite Dense_init_run.
  destruct (Linear_init _ _ _ world) as [[l|e] world1] eqn:Hl; [|done].
  destruct (Bias_init _ _ world1) as [[b|e] world2] eqn:Hb; [|done].
  destruct (dict_getitem _ _) as [cls|] eqn:Hcls; [|done].
  destruct (cls world2) as [[a|e] world3] eqn:Ha; [|done].
  destruct (ModelWithParameters_init name world3) as [[n|e] world4] eqn:Hn; [|done].
  intros [= <- <-]. apply dict_getitem_elem_of in Hcls as [Hin Hkey].
  split; [exact Hkey|]. by exists cls, l, world1, b, world2, a, world3, n.
Qed.

End InitMore.

(** ** The regression harness: batch size, runs and models *)

(** X11: the batch size that [test_model] hands to the optimizer is a
    valid one for every dataset that has a sample: at least 1 and at most
    the number of samples.  For an empty dataset it is 0.  It never
    decreases when the dataset grows. *)
Theorem batch_size_bounds (n : Z) :
  ((0 < n)%Z -> (1 <= Regression.batch_size n <= n)%Z)
  ∧ ((n <= 0)%Z -> Regression.batch_size n = n)
  ∧ (∀ m : Z, (n <= m)%Z -> (Regression.batch_size n <= Regression.batch_size m)%Z).
Proof.
  unfold Regression.batch_size.
  assert (Hinner : ∀ k : Z, Z.min 16 (Z.max 64 (k / 32)) = 16%Z)
    by (intros k; lia).
  split; [|split].
  - intros Hn. rewrite Hinner. lia.
  - intros Hn. rewrite Hinner. lia.
  - intros m Hm. rewrite !Hinner. lia.
Qed.

Section HarnessFacts.
Context {W Tensor Number Model Optimizer Error : Type}.
Context `{!Library W Tensor Number Model Optimizer Error}.
Implicit Types (p : process W) (config : ExperimentConfig.t Number).
Implicit Types (items : list (string * ExperimentConfig.t Number)).
Implicit Types model_generator : Z -> Z -> comp (process W) Model.

(** One turn of the loop. *)
Lemma test_regression_model_loop_cons model_generator dataset_name config items p :
  test_regression_model_loop model_generator ((dataset_name, config) :: items) p =
  match test_model dataset_name model_generator
          (ExperimentConfig.epochs config) (ExperimentConfig.lr config) p with
  | (Raised e, p1) => (Raised e, p1)
  | (Returned (model, mse, mae), p1) =>
    if lt mse (ExperimentConfig.max_mse config)
    then test_regression_model_loop model_generator items
           (printed (rmse_ok_line mse (ExperimentConfig.max_mse config)) p1)
    else
      match str_model model p1 with
      | (Raised e, p2) => (Raised e, p2)
      | (Returned model_str, p2) =>
        (Raised (AssertionError
                   (rmse_too_high model_str mse (ExperimentConfig.max_mse config)
                      dataset_name)), p2)
      end
  end.
Proof.
  cbn [test_regression_model_loop]. unfold mbind, comp_bind, bind.
  destruct (test_model _ _ _ _ p) as [[[[model mse] mae]|e] p1]; [|done].
  destruct (lt mse _); [done|].
  unfold raise. by destruct (str_model model p1) as [[model_str|e] p2].
Qed.

Lemma test_regression_model_loop_returns model_generator items p p' :
  returns (test_regression_model_loop model_generator items) p tt p'
  ↔ passes model_generator items p p'.
Proof.
  unfold returns. split.
  - revert p. induction items as [|[dataset_name config] items IH]; intros p.
    + intros [= <-]. constructor.
    + rewrite test_regression_model_loop_cons.
      destruct (test_model _ _ _ _ p) as [[[[model mse] mae]|e] p1] eqn:Htest;
        [|done].
      destruct (lt mse _) eqn:Hlt.
      * intros Hrest. eapply passes_cons; [exact Htest|exact Hlt|by apply IH].
      * by destruct (str_model model p1) as [[model_str|e] p2].
  - induction 1 as [p|dataset_name config items p model mse mae p1 p' Htest Hlt _ IH].
    + reflexivity.
    + unfold returns in Htest.
      by rewrite test_regression_model_loop_cons, Htest, Hlt.
Qed.

(** Datasets that pass do not stop the loop. *)
Lemma test_regression_model_loop_app model_generator items items' p p1 :
  passes model_generator items p p1 ->
  test_regression_model_loop model_generator (items ++ items') p
  = test_regression_model_loop model_generator items' p1.
Proof.
  induction 1 as [p|dataset_name config items p model mse mae p1 p' Htest Hlt _ IH].
  - reflexivity.
  - unfold returns in Htest. simpl app.
    by rewrite test_regression_model_loop_cons, Htest, Hlt.
Qed.

(** A run over a configuration splits at any of its datasets: the ones
    before it passed from the start, then it was tested from where they
    left the process and passed, then the ones after it passed. *)
Lemma passes_split model_generator before dataset_name config after p p' :
  passes model_generator (before ++ (dataset_name, config) :: after) p p' ->
  ∃ p0 model mse mae p1,
    passes model_generator before p p0
    ∧ returns (test_model dataset_name model_generator
                 (ExperimentConfig.epochs config) (ExperimentConfig.lr config))
              p0 (model, mse, mae) p1
    ∧ lt mse (ExperimentConfig.max_mse config) = true
    ∧ passes model_generator after
             (printed (rmse_ok_line mse (ExperimentConfig.max_mse config)) p1) p'.
Proof.
  revert p. induction before as [|[name0 config0] before IH]; intros p Hpasses.
  - simpl in Hpasses. inversion Hpasses as [|? ? ? ? model mse mae p1 ? Htest Hlt Hrest];
      subst.
    exists p, model, mse, mae, p1. split; [constructor|done].
  - simpl in Hpasses.
    inversion Hpasses as [|? ? ? ? model0 mse0 mae0 p1 ? Htest Hlt Hrest]; subst.
    apply IH in Hrest as (p0 & model & mse & mae & p2 & Hbefore & Hrun & Hunder & Hafter).
    exists p0, model, mse, mae, p2. split; [|done].
    by eapply passes_cons.
Qed.

(** [test_regression_model] is the loop, then the closing line. *)
Lemma test_regression_model_eq model_generator items p :
  test_regression_model model_generator items p =
  match test_regression_model_loop model_generator items p with
  | (Raised e, p1) => (Raised e, p1)
  | (Returned _, p1) =>
    (Returned tt, printed "All models have satisfactory errors." p1)
  end.
Proof.
  unfold test_regression_model, mbind, comp_bind, bind.
  by destruct (test_regression_model_loop _ _ p) as [[[]|e] p1].
Qed.

(** X12: [test_regression_model] returns exactly when the datasets pass
    one after the other in the order of the configuration, each
    [test_model] returning an error that the comparison finds under the
    threshold of its dataset; the process is then the one after the last
    dataset, with the closing line printed last. *)
Theorem test_regression_model_returns_iff model_generator items p p' :
  returns (test_regression_model model_generator items) p tt p'
  ↔ ∃ p1, passes model_generator items p p1
          ∧ p' = printed "All models have satisfactory errors." p1.
Proof.
  unfold returns. rewrite test_regression_model_eq. split.
  - destruct (test_regression_model_loop _ _ p) as [[[]|e] p1] eqn:Hloop; [|done].
    intros [= <-]. exists p1. split; [|done].
    by apply test_regression_model_loop_returns.
  - intros (p1 & Hpass & ->).
    apply test_regression_model_loop_returns in Hpass. unfold returns in Hpass.
    by rewrite Hpass.
Qed.

(** X13: the first dataset whose error is not under its threshold ends
    the run: the datasets before it having passed, [test_regression_model]
    raises the [AssertionError] whose message names the model, the error,
    the threshold and that dataset; the datasets after it are not tested,
    whatever they are, and the closing line is not printed. *)
Theorem test_regression_model_first_failure model_generator items dataset_name
    config items' p p1 model mse mae p2 model_str p3 :
  passes model_generator items p p1 ->
  returns (test_model dataset_name model_generator
             (ExperimentConfig.epochs config) (ExperimentConfig.lr config))
          p1 (model, mse, mae) p2 ->
  lt mse (ExperimentConfig.max_mse config) = false ->
  returns (str_model model) p2 model_str p3 ->
  test_regression_model model_generator
    (items ++ (dataset_name, config) :: items') p
  = (Raised (AssertionError
               ("Model " +:+ model_str +:+ " achieved " +:+ str_number mse
                +:+ " rmse, more than  "
                +:+ str_number (ExperimentConfig.max_mse config)
                +:+ " which is the maximum expected for dataset "
                +:+ dataset_name +:+ ".")), p3).
Proof.
  unfold returns. intros Hpass Htest Hlt Hstr.
  rewrite test_regression_model_eq.
  rewrite (test_regression_model_loop_app _ _ _ _ _ Hpass).
  by rewrite test_regression_model_loop_cons, Htest, Hlt, Hstr.
Qed.

(** X14: in a run of [test_regression_model] that returns, every dataset
    of the configuration was tested in that run, with the epochs and the
    learning rate of its own entry, from the process that the datasets
    before it left after passing, and its error was found under the
    threshold of its entry; the datasets after it then passed too, and the
    last thing printed is the closing line. *)
Theorem test_regression_model_returns_all_tested model_generator items p p' :
  returns (test_regression_model model_generator items) p tt p' ->
  (∀ before dataset_name config after,
     items = before ++ (dataset_name, config) :: after ->
     ∃ p0 model mse mae p1 p2,
       passes model_generator before p p0
       ∧ returns (test_model dataset_name model_generator
                    (ExperimentConfig.epochs config) (ExperimentConfig.lr config))
                 p0 (model, mse, mae) p1
       ∧ lt mse (ExperimentConfig.max_mse config) = true
       ∧ passes model_generator after
                (printed (rmse_ok_line mse (ExperimentConfig.max_mse config)) p1) p2
       ∧ p' = printed "All models have satisfactory errors." p2)
  ∧ last (stdout p') = Some "All models have satisfactory errors.".
Proof.
  unfold returns. rewrite test_regression_model_eq.
  destruct (test_regression_model_loop _ _ p) as [[[]|e] p2] eqn:Hloop; [|done].
  intros [= <-]. apply test_regression_model_loop_returns in Hloop. split.
  - intros before dataset_name config after ->.
    apply passes_split in Hloop as (p0 & model & mse & mae & p1 & H0 & H1 & H2 & H3).
    by exists p0, model, mse, mae, p1, p2.
  - unfold printed. simpl. apply last_snoc.
Qed.

End HarnessFacts.

Section NetworksFacts.
Context {Linear Bias Activation World Initializer Sequential : Type}.
Context (Zero RandomNormal : Initializer).
Context (Linear_init : Z -> Z -> Initializer -> comp World Linear).
Context (Bias_init : Z -> Initializer -> comp World Bias).
Context (Identity ReLU TanH Sigmoid Softmax : comp World Activation).
Context (ModelWithParameters_init : option string -> comp World string).
Context (Sequential_init :
           list (layer Linear Bias Activation) -> string -> comp World Sequential).

Local Abbreviation net2 :=
  (network2 Zero RandomNormal Linear_init Bias_init
     Identity ReLU TanH Sigmoid Softmax ModelWithParameters_init Sequential_init).

(** X15: [network2(din, dout)] builds, in this order, a Dense block from
    [din] to [din], a ReLU and a Dense block from [din] to [dout], and
    hands the three to the container under the name [network2].  Both
    blocks get the defaults of [Dense]: weights from the random-normal
    initializer, bias from the zero initializer, the Identity activation
    and a name ending in [(id)]; the only nonlinearity of the network is the
    ReLU between them. *)
Theorem network2_layers din dout world
    l1 world1 b1 world2 a1 world3 n1 world4 relu world5
    l2 world6 b2 world7 a2 world8 n2 world9 model world10 :
  returns (Linear_init din din RandomNormal) world l1 world1 ->
  returns (Bias_init din Zero) world1 b1 world2 ->
  returns Identity world2 a1 world3 ->
  returns (ModelWithParameters_init None) world3 n1 world4 ->
  returns ReLU world4 relu world5 ->
  returns (Linear_init din dout RandomNormal) world5 l2 world6 ->
  returns (Bias_init dout Zero) world6 b2 world7 ->
  returns Identity world7 a2 world8 ->
  returns (ModelWithParameters_init None) world8 n2 world9 ->
  returns (Sequential_init
             [DenseLayer (mkDense l1 b1 a1 (n1 +:+ "(id)"));
              ActivationLayer relu;
              DenseLayer (mkDense l2 b2 a2 (n2 +:+ "(id)"))]
             "network2") world9 model world10 ->
  returns (net2 din dout) world model world10.
Proof.
  unfold returns. intros Hl1 Hb1 Ha1 Hn1 Hrelu Hl2 Hb2 Ha2 Hn2 Hseq.
  unfold network2, sn_Dense, mbind, comp_bind, bind.
  rewrite Dense_init_run. simpl. rewrite Hl1, Hb1, Ha1, Hn1, Hrelu.
  rewrite Dense_init_run. simpl. by rewrite Hl2, Hb2, Ha2, Hn2.
Qed.

End NetworksFacts.

(** ** The Dense block over the primitive layers *)

Section PrimitiveFacts.
Context {Tensor : Type} `{!TensorOps Tensor}.
Implicit Types (x : Tensor).
Implicit Types
  self : @Dense (Primitive.Linear Tensor) (Primitive.Bias Tensor) Primitive.Activation.

Lemma operation_read_only {S A} (o : outcome A) : read_only (S:=S) (operation o).
Proof. intros s. reflexivity. Qed.

Lemma getattr_read_only {S A} (attribute : S -> A) : read_only (getattr attribute).
Proof. intros s. reflexivity. Qed.

(** The forward passes of the three layers leave the layer, and with it
    its parameter, as it was, whether they return or raise. *)
Lemma Linear_forward_with_cache_read_only x :
  read_only (forward_with_cache (L:=Primitive.Linear Tensor) x).
Proof.
  simpl. apply read_only_bind; [apply getattr_read_only|]. intros w.
  apply read_only_bind; [apply operation_read_only|]. intros y.
  apply read_only_ret.
Qed.

Lemma Bias_forward_with_cache_read_only x :
  read_only (forward_with_cache (L:=Primitive.Bias Tensor) x).
Proof.
  simpl. apply read_only_bind; [apply getattr_read_only|]. intros b.
  apply read_only_bind; [apply operation_read_only|]. intros y.
  apply read_only_ret.
Qed.

Lemma Activation_forward_with_cache_read_only x :
  read_only (forward_with_cache (L:=Primitive.Activation) x).
Proof. intros self. by destruct self. Qed.

(** The parameters of a block over these layers: the weight of its Linear
    under [w], the bias value of its Bias under [b]. *)
Lemma Dense_get_parameters_primitive self :
  Dense_get_parameters self
  = (Returned (dict_unpack [ {[ "w" := Primitive.w (linear self) ]};
                             {[ "b" := Primitive.b (bias self) ]}; ∅ ]), self).
Proof. rewrite Dense_get_parameters_run. simpl. by destruct self. Qed.

(** C7: for every input [x] and every Dense block, its children being the
    Linear, the Bias and one of the five activations, [forward_with_cache(x)]
    called twice in a row on the same input, nothing updating the
    parameters in between, gives the same outcome both times: the same
    output and the same cache, or the same exception when the shapes do
    not fit.  Neither call changes a parameter: after each of them the
    block is the one it was, its weight [w] and its bias [b] included, and
    [get_parameters] returns what it returned before. *)
Theorem Dense_forward_with_cache_twice x self :
  let first := Dense_forward_with_cache x self in
  let second := Dense_forward_with_cache x first.2 in
  second.1 = first.1
  ∧ first.2 = self
  ∧ second.2 = self
  ∧ Primitive.w (linear first.2) = Primitive.w (linear self)
  ∧ Primitive.b (bias first.2) = Primitive.b (bias self)
  ∧ Primitive.w (linear second.2) = Primitive.w (linear self)
  ∧ Primitive.b (bias second.2) = Primitive.b (bias self)
  ∧ Dense_get_parameters first.2 = Dense_get_parameters self
  ∧ Dense_get_parameters second.2 = Dense_get_parameters self
  ∧ (Dense_get_parameters self).1
    = Returned (dict_unpack [ {[ "w" := Primitive.w (linear self) ]};
                              {[ "b" := Primitive.b (bias self) ]}; ∅ ]).
Proof.
  intros first second. subst second first.
  rewrite !(Dense_forward_with_cache_read_only
              Linear_forward_with_cache_read_only
              Bias_forward_with_cache_read_only
              Activation_forward_with_cache_read_only x self).
  rewrite Dense_get_parameters_primitive. repeat split.
Qed.

End PrimitiveFacts.

(** ** The theorems at work on the integer children *)

Section Instances.
Import Scalar.
Local Open Scope Z_scope.

Lemma Dense_forward_with_cache_composes_block :
  returns (Dense_forward_with_cache 5) block (17, (5, tt, 17)) block.
Proof.
  apply (Dense_forward_with_cache_composes 5 block 15 5 (linear block)
           17 tt (bias block) 17 17 (activation block));
    reflexivity.
Defined.

Lemma Dense_backward_reverse_order_block :
  ∃ δEδdense, returns (Dense_backward 1 (5, tt, 17)) block (3, δEδdense) block.
Proof.
  apply (Dense_backward_reverse_order 1 5 tt 17 block
           1 ∅ (activation block) 1 {[ "b" := 1 ]} (bias block)
           3 {[ "w" := 5 ]} (linear block));
    reflexivity.
Defined.

Lemma Dense_backward_param_grads_key_union_block :
  ∃ δEδdense,
    returns (Dense_backward 1 (5, tt, 17)) block (3, δEδdense) block
    ∧ dom δEδdense = {[ "b"; "w" ]}
    ∧ δEδdense = dict_unpack [ {[ "b" := 1 ]}; {[ "w" := 5 ]} ].
Proof.
  destruct (Dense_backward_param_grads_key_union 1 5 tt 17 block
              1 ∅ (activation block) 1 {[ "b" := 1 ]} (bias block)
              3 {[ "w" := 5 ]} (linear block))
    as (δEδdense & Hret & Hdom & _ & Hactivation & _); [reflexivity..|].
  exists δEδdense. split; [exact Hret|]. split.
  - rewrite Hdom, !dom_singleton_L, dom_empty_L. apply (right_id_L ∅ (∪)).
  - by apply Hactivation.
Defined.

Lemma Dense_get_parameters_key_union_block :
  ∃ p,
    returns Dense_get_parameters block p block
    ∧ dom p = {[ "w"; "b" ]}
    ∧ p = dict_unpack [ {[ "b" := 2 ]}; {[ "w" := 3 ]}; ∅ ].
Proof.
  destruct (Dense_get_parameters_key_union block
              {[ "w" := 3 ]} (linear block) {[ "b" := 2 ]} (bias block)
              ∅ (activation block))
    as (p & Hret & Hdom & _ & _ & Hsame); [reflexivity..|].
  exists p. split; [exact Hret|]. split.
  - rewrite Hdom, !dom_singleton_L, dom_empty_L. apply (right_id_L ∅ (∪)).
  - apply Hsame. rewrite !dom_singleton_L. by apply disjoint_singleton_l,
      not_elem_of_singleton.
Defined.

Lemma Dense_forward_with_cache_idempotent_block :
  let first := Dense_forward_with_cache 5 block in
  let second := Dense_forward_with_cache 5 first.2 in
  second.1 = first.1
  ∧ first.2 = block
  ∧ second.2 = block
  ∧ Dense_get_parameters first.2 = Dense_get_parameters block
  ∧ Dense_get_parameters second.2 = Dense_get_parameters block.
Proof.
  apply (Dense_forward_with_cache_idempotent 5 block).
  - intros x' self. reflexivity.
  - intros x' self. reflexivity.
  - intros x' self. destruct self; reflexivity.
Defined.

Lemma Dense_merges_overwrite_silently_clashing :
  ∃ δEδdense p,
    returns (Dense_backward 4 (5, tt, 17)) clashing (12, δEδdense) clashing
    ∧ returns Dense_get_parameters clashing p clashing
    ∧ δEδdense !! "w" = Some 20
    ∧ p !! "w" = Some 2.
Proof.
  destruct (Dense_merges_overwrite_silently 4 5 tt 17 clashing
              4 ∅ (activation clashing) 4 {[ "w" := 4 ]} (bias clashing)
              12 {[ "w" := 20 ]} (linear clashing)
              {[ "w" := 3 ]} (linear clashing) {[ "w" := 2 ]} (bias clashing)
              ∅ (activation clashing))
    as (δEδdense & p & Hback & Hget & Hgrads & Hparams); [reflexivity..|].
  exists δEδdense, p. split; [exact Hback|]. split; [exact Hget|]. split.
  - apply (Hgrads [] {[ "w" := 4 ]} [] {[ "w" := 20 ]} [∅] "w" 20);
      [reflexivity|by eexists|reflexivity|by repeat constructor].
  - apply (Hparams [] {[ "w" := 3 ]} [] {[ "w" := 2 ]} [∅] "w" 2);
      [reflexivity|by eexists|reflexivity|by repeat constructor].
Defined.

Lemma Dense_merge_precedence_differs_clashing :
  ∃ δEδdense p,
    returns (Dense_backward 4 (5, tt, 17)) clashing (12, δEδdense) clashing
    ∧ returns Dense_get_parameters clashing p clashing
    ∧ δEδdense !! "w" = Some 20
    ∧ p !! "w" = Some 2.
Proof.
  destruct (Dense_merge_precedence_differs 4 5 tt 17 clashing
              4 ∅ (activation clashing) 4 {[ "w" := 4 ]} (bias clashing)
              12 {[ "w" := 20 ]} (linear clashing)
              {[ "w" := 3 ]} (linear clashing) {[ "w" := 2 ]} (bias clashing)
              ∅ (activation clashing) "w" 20 4 3 2)
    as (δEδdense & p & Hback & Hget & _ & _ & _ & _ & Hgrad & Hparam);
    [reflexivity..|].
  exists δEδdense, p. split; [exact Hback|]. split; [exact Hget|].
  split; [by apply Hgrad|by apply Hparam].
Defined.

Lemma Dense_init_activation_name_foo_relu :
  Dense_new 1 1 (Some "foo") None None None 7
  = (Raised (ValueError "Unknown activation function foo. Available activations: id,relu,tanh,sigmoid,softmax"), 8)
  ∧ Dense_new 1 1 (Some "relu") None None None 7
    = (Returned (mkDense (mkLinear "w" 7) (mkBias "b" 0) ReLU "Dense(relu)"), 8)
  ∧ Dense_new 1 1 (Some "softmax") None None None 7
    = (Returned (mkDense (mkLinear "w" 7) (mkBias "b" 0) Softmax "Dense(softmax)"), 8).
Proof.
  split; [|split].
  - destruct (Dense_init_activation_name Zero RandomNormal Linear_init Bias_init
                (ret Identity) (ret ReLU) (ret TanH) (ret Sigmoid) (ret Softmax)
                ModelWithParameters_init 1 1 "foo" None None None 7)
      as [Hunknown _].
    destruct Hunknown as [_ Hmessage]; [by apply (bool_decide_unpack _)|].
    apply (Hmessage (mkLinear "w" 7) 8 (mkBias "b" 0) 8); reflexivity.
  - destruct (Dense_init_activation_name Zero RandomNormal Linear_init Bias_init
                (ret Identity) (ret ReLU) (ret TanH) (ret Sigmoid) (ret Softmax)
                ModelWithParameters_init 1 1 "relu" None None None 7)
      as (_ & _ & Hknown).
    refine (Hknown (ret ReLU) _ (mkLinear "w" 7) 8 (mkBias "b" 0) 8 ReLU 8
              "Dense" 8 _ _ _ _); [|reflexivity..].
    apply list_elem_of_further, list_elem_of_here.
  - destruct (Dense_init_activation_name Zero RandomNormal Linear_init Bias_init
                (ret Identity) (ret ReLU) (ret TanH) (ret Sigmoid) (ret Softmax)
                ModelWithParameters_init 1 1 "softmax" None None None 7)
      as (_ & _ & Hknown).
    refine (Hknown (ret Softmax) _ (mkLinear "w" 7) 8 (mkBias "b" 0) 8 Softmax 8
              "Dense" 8 _ _ _ _); [|reflexivity..].
    do 4 apply list_elem_of_further. apply list_elem_of_here.
Defined.

Lemma Dense_init_defaults_scalar :
  Dense_new 1 1 None None None None 7
  = (Returned (mkDense (mkLinear "w" 7) (mkBias "b" 0) Identity "Dense(id)"), 8).
Proof.
  destruct (Dense_init_defaults Zero RandomNormal Linear_init Bias_init
              (ret Identity) (ret ReLU) (ret TanH) (ret Sigmoid) (ret Softmax)
              ModelWithParameters_init 1 1 None None None None)
    as (_ & _ & _ & Hdefault).
  apply (Hdefault 7 (mkLinear "w" 7) 8 (mkBias "b" 0) 8 Identity 8 "Dense" 8);
    reflexivity.
Defined.

Lemma Dense_forward_with_cache_returns_inv_block :
  ∃ y_linear y_bias,
    returns (forward_with_cache 5) (linear block) (y_linear, 5) (linear block)
    ∧ returns (forward_with_cache y_linear) (bias block) (y_bias, tt) (bias block)
    ∧ returns (forward_with_cache y_bias) (activation block) (17, 17)
              (activation block)
    ∧ name block = name block.
Proof.
  apply (Dense_forward_with_cache_returns_inv 5 block 17 (5, tt, 17) block).
  reflexivity.
Defined.

Lemma Dense_forward_with_cache_raises_inv_tanh :
  ∃ y_linear cache_linear y_bias cache_bias,
    returns (forward_with_cache 5) (linear tanh_block) (y_linear, cache_linear)
            (linear tanh_block)
    ∧ returns (forward_with_cache y_linear) (bias tanh_block) (y_bias, cache_bias)
              (bias tanh_block)
    ∧ forward_with_cache y_bias (activation tanh_block)
      = (Raised (Exception "NotImplementedError" "no integer value"), TanH).
Proof.
  destruct (Dense_forward_with_cache_raises_inv 5 tanh_block
              (Exception "NotImplementedError" "no integer value") tanh_block)
    as [_ [(Hl & _)|[(y1 & c1 & _ & Hb & _)|Ha]]]; [reflexivity| | |exact Ha].
  - discriminate Hl.
  - destruct y1; discriminate Hb.
Defined.

Lemma Dense_backward_raises_inv_tanh :
  backward 1 17 (activation tanh_block)
  = (Raised (Exception "NotImplementedError" "no integer value"), TanH)
  ∧ bias tanh_block = bias tanh_block ∧ linear tanh_block = linear tanh_block.
Proof.
  destruct (Dense_backward_raises_inv 1 5 tt 17 tanh_block
              (Exception "NotImplementedError" "no integer value") tanh_block)
    as [_ [Ha|[(δa & ga & Ha & _)|(δa & ga & δb & gb & Ha & _)]]];
    [reflexivity|exact Ha| |]; discriminate Ha.
Defined.

Lemma Dense_backward_keys_match_parameters_clashing :
  ∃ δEδdense p self1,
    returns (Dense_backward 4 (5, tt, 17)) clashing (12, δEδdense) self1
    ∧ returns Dense_get_parameters self1 p clashing
    ∧ dom δEδdense = dom p.
Proof.
  apply (Dense_backward_keys_match_parameters 4 5 tt 17 clashing
           4 ∅ (activation clashing) 4 {[ "w" := 4 ]} (bias clashing)
           12 {[ "w" := 20 ]} (linear clashing)
           {[ "w" := 3 ]} (linear clashing) {[ "w" := 2 ]} (bias clashing)
           ∅ (activation clashing));
    try reflexivity; by rewrite !dom_singleton_L.
Defined.

Lemma Dense_get_parameters_keeps_block :
  ∃ p,
    returns Dense_get_parameters block p block
    ∧ p !! "w" = Some 3
    ∧ p !! "b" = Some 2.
Proof.
  destruct (Dense_get_parameters_keeps block
              {[ "w" := 3 ]} (linear block) {[ "b" := 2 ]} (bias block)
              ∅ (activation block))
    as (p & Hret & _ & Hbias & Hlinear); [reflexivity..|].
  exists p. split; [exact Hret|]. split.
  - eapply lookup_weaken; [|apply Hlinear].
    + apply lookup_singleton_eq.
    + rewrite !dom_singleton_L. by apply disjoint_singleton_l, not_elem_of_singleton.
    + rewrite dom_empty_L. apply disjoint_empty_r.
  - eapply lookup_weaken; [|apply Hbias].
    + apply lookup_singleton_eq.
    + rewrite dom_empty_L. apply disjoint_empty_r.
Defined.

Lemma Dense_backward_keeps_block :
  ∃ δEδdense,
    returns (Dense_backward 1 (5, tt, 17)) block (3, δEδdense) block
    ∧ δEδdense !! "w" = Some 5
    ∧ δEδdense !! "b" = Some 1.
Proof.
  destruct (Dense_backward_keeps 1 5 tt 17 block
              1 ∅ (activation block) 1 {[ "b" := 1 ]} (bias block)
              3 {[ "w" := 5 ]} (linear block))
    as (g & Hret & _ & Hlinear & Hbias); [reflexivity..|].
  exists g. split; [exact Hret|]. split.
  - eapply lookup_weaken; [|apply Hlinear].
    + apply lookup_singleton_eq.
    + rewrite dom_empty_L. apply disjoint_empty_r.
  - eapply lookup_weaken; [|apply Hbias].
    + apply lookup_singleton_eq.
    + rewrite !dom_singleton_L. by apply disjoint_singleton_l, not_elem_of_singleton.
    + rewrite dom_empty_L. apply disjoint_empty_r.
Defined.

Lemma Dense_get_parameters_size_clashing :
  ∃ p,
    returns Dense_get_parameters clashing p clashing
    ∧ (size p ≤ 1 + 1 + 0)%nat
    ∧ size p ≠ (1 + 1 + 0)%nat.
Proof.
  destruct (Dense_get_parameters_size clashing
              {[ "w" := 3 ]} (linear clashing) {[ "w" := 2 ]} (bias clashing)
              ∅ (activation clashing))
    as (p & Hret & Hle & Heq); [reflexivity..|].
  rewrite !map_size_singleton, map_size_empty in Hle, Heq.
  exists p. split; [exact Hret|]. split; [exact Hle|].
  intros Hsize. apply Heq in Hsize as (Hclash & _).
  rewrite !dom_singleton_L in Hclash.
  apply (Hclash "w"); by apply elem_of_singleton.
Defined.

Lemma Dense_backward_get_parameters_read_only_block :
  (Dense_backward 1 (5, tt, 17) block).2 = block
  ∧ (Dense_get_parameters block).2 = block
  ∧ Dense_get_parameters (Dense_get_parameters block).2 = Dense_get_parameters block
  ∧ Dense_get_parameters (Dense_backward 1 (5, tt, 17) block).2
    = Dense_get_parameters block.
Proof.
  apply (Dense_backward_get_parameters_read_only 1 (5, tt, 17) block).
  - intros δ c self. reflexivity.
  - intros δ c self. reflexivity.
  - intros δ c self. destruct self; reflexivity.
  - intros self. reflexivity.
  - intros self. reflexivity.
  - intros self. reflexivity.
Defined.

Lemma Dense_init_child_raises_sizes :
  Dense_new 2 1 (Some "foo") None None None 7
  = (Raised (ValueError "only 1x1"), 7).
Proof.
  apply (Dense_init_child_raises Zero RandomNormal Linear_init Bias_init
           (ret Identity) (ret ReLU) (ret TanH) (ret Sigmoid) (ret Softmax)
           ModelWithParameters_init 2 1 (Some "foo") None None None 7).
  left. reflexivity.
Defined.

Lemma Dense_init_returns_inv_relu :
  "relu" ∈ ["id"; "relu"; "tanh"; "sigmoid"; "softmax"]
  ∧ ∃ cls l world1 b world2 a world3 n,
      ("relu", cls) ∈ activation_dict (World:=Z) (ret Identity) (ret ReLU) (ret TanH)
                        (ret Sigmoid) (ret Softmax)
      ∧ returns (Linear_init 1 1 RandomNormal) 7 l world1
      ∧ returns (Bias_init 1 Zero) world1 b world2
      ∧ returns cls world2 a world3
      ∧ returns (ModelWithParameters_init None) world3 n 8
      ∧ mkDense (mkLinear "w" 7) (mkBias "b" 0) ReLU "Dense(relu)"
        = mkDense l b a (n +:+ "(" +:+ "relu" +:+ ")").
Proof.
  apply (Dense_init_returns_inv Zero RandomNormal Linear_init Bias_init
           (ret Identity) (ret ReLU) (ret TanH) (ret Sigmoid) (ret Softmax)
           ModelWithParameters_init 1 1 (Some "relu") None None None 7
           (mkDense (mkLinear "w" 7) (mkBias "b" 0) ReLU "Dense(relu)") 8).
  reflexivity.
Defined.

Lemma batch_size_bounds_100 :
  1 <= Regression.batch_size 100 <= 100
  ∧ Regression.batch_size 100 <= Regression.batch_size 1000.
Proof.
  destruct (batch_size_bounds 100) as (Hvalid & _ & Hmono).
  split; [apply Hvalid; lia|apply Hmono; lia].
Defined.

Lemma test_regression_model_returns_iff_passing :
  ∃ p1, passes Stub.model_generator Stub.passing Stub.start p1.
Proof.
  destruct (proj1 (test_regression_model_returns_iff Stub.model_generator
                     Stub.passing Stub.start
                     (test_regression_model Stub.model_generator Stub.passing
                        Stub.start).2))
    as (p1 & Hpasses & _); [reflexivity|].
  by exists p1.
Defined.

Lemma test_regression_model_first_failure_insurance :
  (test_regression_model Stub.model_generator Stub.failing Stub.start).1
  = Raised (AssertionError "Model m achieved 9 rmse, more than  5 which is the maximum expected for dataset insurance.").
Proof.
  rewrite (test_regression_model_first_failure Stub.model_generator
             [("boston", ExperimentConfig.mk 10 1 1000)]
             "insurance" (ExperimentConfig.mk 5 1 2000)
             [("wine", ExperimentConfig.mk 5 1 1000)] Stub.start
             (test_regression_model_loop Stub.model_generator
                [("boston", ExperimentConfig.mk 10 1 1000)] Stub.start).2
             "m" 9 0
             (test_model "insurance" Stub.model_generator 2000 1
                (test_regression_model_loop Stub.model_generator
                   [("boston", ExperimentConfig.mk 10 1 1000)] Stub.start).2).2
             "m"
             (test_model "insurance" Stub.model_generator 2000 1
                (test_regression_model_loop Stub.model_generator
                   [("boston", ExperimentConfig.mk 10 1 1000)] Stub.start).2).2);
    [reflexivity| |reflexivity..].
  apply test_regression_model_loop_returns. reflexivity.
Defined.

Lemma test_regression_model_returns_all_tested_passing :
  (∃ p0 model mse mae p1,
     passes Stub.model_generator [("boston", ExperimentConfig.mk 10 1 1000)]
            Stub.start p0
     ∧ returns (test_model "wine" Stub.model_generator 1000 1) p0 (model, mse, mae) p1
     ∧ (mse <? 5) = true)
  ∧ last (stdout (test_regression_model Stub.model_generator Stub.passing
                    Stub.start).2)
    = Some "All models have satisfactory errors.".
Proof.
  destruct (test_regression_model_returns_all_tested Stub.model_generator
              Stub.passing Stub.start
              (test_regression_model Stub.model_generator Stub.passing
                 Stub.start).2)
    as [Htested Hlast]; [reflexivity|]. split; [|exact Hlast].
  destruct (Htested [("boston", ExperimentConfig.mk 10 1 1000)]
              "wine" (ExperimentConfig.mk 5 1 1000) [])
    as (p0 & model & mse & mae & p1 & _ & Hbefore & Hrun & Hunder & _);
    [reflexivity|].
  by exists p0, model, mse, mae, p1.
Defined.

Lemma network2_layers_scalar :
  returns (network2 Zero RandomNormal Linear_init Bias_init
             (ret Identity) (ret ReLU) (ret TanH) (ret Sigmoid) (ret Softmax)
             ModelWithParameters_init Stub.Sequential_init 1 1) 7
          ("network2",
           [DenseLayer (mkDense (mkLinear "w" 7) (mkBias "b" 0) Identity "Dense(id)");
            ActivationLayer ReLU;
            DenseLayer (mkDense (mkLinear "w" 8) (mkBias "b" 0) Identity "Dense(id)")])
          9.
Proof.
  apply (network2_layers Zero RandomNormal Linear_init Bias_init
           (ret Identity) (ret ReLU) (ret TanH) (ret Sigmoid) (ret Softmax)
           ModelWithParameters_init Stub.Sequential_init 1 1 7
           (mkLinear "w" 7) 8 (mkBias "b" 0) 8 Identity 8 "Dense" 8 ReLU 8
           (mkLinear "w" 8) 9 (mkBias "b" 0) 9 Identity 9 "Dense" 9);
    reflexivity.
Defined.

End Instances.
